(** * Tick location and formatting for time series axes

    A shallow embedding of [pandas/tseries/converter.py]: the ordinal
    conversion of clock times, the date-time unit converter, the annual
    spacing table, the four granularity finders and the dynamic
    locator / formatter pair, with the properties the specification
    states about them.

    Conventions of the embedding.
    - Python integers are [Z]; [//] and [%] are [Z.div] and [Z.modulo]
      (both round towards minus infinity, as in Python).
    - View limits ([vmin], [vmax]) are binary64 values in the source; every
      finite binary64 value is a rational, and they are modelled as [Q]:
      truncation and the test for a fractional part are exact on them.
    - Where the source really computes in binary64 (the clock-time round
      trip, the [1.15 * periodsperyear] thresholds, the [vmax + 1] of the
      annual finder) the model computes with Rocq's primitive binary64
      floats.
    - Structured arrays are lists of records, fancy-index assignment is a
      fold of stdpp's [alter] over the index array. *)

From Stdlib Require Import ZArith QArith Qround Lia Lqa Bool List.
From Stdlib Require Import PrimFloat FloatOps SpecFloat Uint63.
From stdpp Require Import base list strings gmap sorting.

Set Default Proof Using "Type".
Set Warnings "-inexact-float,-register-all".
Local Open Scope Z_scope.

(** ** Python numerics *)

Module Py.

(** [int(x)] on a float: truncation towards zero. *)
Definition int (x : Q) : Z := Z.quot (Qnum x) (Z.pos (Qden x)).

(** [x % 1] on a float: the fractional part, in [[0, 1)]. *)
Definition mod1 (x : Q) : Q := (x - inject_Z (Qfloor x))%Q.

(** [x % 1 > 0.0]. *)
Definition has_fraction (x : Q) : bool :=
  negb (Qle_bool (mod1 x) 0).

(** The exact rational value of a finite binary64 number. *)
Definition Q_of_float (f : float) : option Q :=
  match Prim2SF f with
  | S754_zero _ => Some 0%Q
  | S754_finite s m e =>
      let v := (inject_Z (Z.pos m) * Qpower 2 e)%Q in
      Some (if s then Qopp v else v)
  | _ => None
  end.

(** [float(n)] for an integer that fits 63 bits (every count of periods
    in this module does). *)
Definition float_of_Z (n : Z) : float :=
  if Z.ltb n 0 then PrimFloat.opp (PrimFloat.of_uint63 (Uint63.of_Z (- n)))
  else PrimFloat.of_uint63 (Uint63.of_Z n).

(** The odd part of a positive number and the number of its trailing zero
    bits. *)
Fixpoint odd_part (p : positive) : positive * Z :=
  match p with
  | xO p' => let '(m, k) := odd_part p' in (m, k + 1)
  | _ => (p, 0)
  end.

(** The binary64 number a view limit is: the float of the same value, or
    [None] for a rational that is no binary64 value (no view limit is
    one).  The candidate is built from the reduced fraction and kept only
    if its exact value is the rational. *)
Definition to_float (x : Q) : option float :=
  let x := Qred x in
  let '(d, k) := odd_part (Qden x) in
  let f :=
    match Qnum x with
    | Z0 => PrimFloat.zero
    | Zpos n => let '(m, j) := odd_part n in
                SF2Prim (S754_finite false m (j - k))
    | Zneg n => let '(m, j) := odd_part n in
                SF2Prim (S754_finite true m (j - k))
    end in
  match Q_of_float f with
  | Some y => if Qeq_bool y x then Some f else None
  | None => None
  end.

(** [x + y] on floats: the binary64 sum, as the rational it is; [None]
    when the sum is an infinity or not a number ([int] then raises). *)
Definition fadd (x y : Q) : option Q :=
  fx ← to_float x; fy ← to_float y; Q_of_float (fx + fy)%float.

End Py.

(** ** The annual spacing table *)

(** [_get_default_annual_spacing(nyears)].  Both callers pass an integer:
    the annual finder its span, the others [span / periodsperyear], which is
    integer division in Python 2. *)
Definition _get_default_annual_spacing (nyears : Z) : Z * Z :=
  if nyears <? 11 then (1, 1)
  else if nyears <? 20 then (1, 2)
  else if nyears <? 50 then (1, 5)
  else if nyears <? 100 then (5, 10)
  else if nyears <? 200 then (5, 25)
  else if nyears <? 600 then (10, 50)
  else let factor := nyears / 1000 + 1 in
       (factor * 20, factor * 100).

(** ** Level labels *)

(** [has_level_label(label_flags, vmin)]: [label_flags] is the array of
    indices that [period_break] or [nonzero] returns. *)
Definition has_level_label (label_flags : list nat) (vmin : Q) : bool :=
  if bool_decide (length label_flags = 0%nat)
     || (bool_decide (length label_flags = 1%nat)
         && bool_decide (label_flags !! 0%nat = Some 0%nat)
         && Py.has_fraction vmin)
  then false else true.

(** ** Tick information *)

(** One row of the structured array the finders return: the ordinal, the
    major and minor flags and the format string (empty: no label). *)
Module TickInfo.
Record row : Type := Row { val : Z; maj : bool; min : bool; fmt : string }.

Definition set_maj (b : bool) (r : row) : row :=
  Row (val r) b (min r) (fmt r).
Definition set_min (b : bool) (r : row) : row :=
  Row (val r) (maj r) b (fmt r).
Definition set_fmt (s : string) (r : row) : row :=
  Row (val r) (maj r) (min r) s.
End TickInfo.

Abbreviation TickInfo := (list TickInfo.row).

(** The line feed of the format strings. *)
Definition nl : string := String (Ascii.ascii_of_nat 10) EmptyString.

(** [np.arange(lo, lo + n)]. *)
Definition arange (lo : Z) (n : nat) : list Z :=
  map (fun i => lo + Z.of_nat i) (seq 0 n).

(** [np.zeros(span, dtype=...)] with [info['val'] = dates]; a negative
    dimension is a ValueError. *)
Definition zeros (span : Z) (lo : Z) : option TickInfo :=
  if span <? 0 then None
  else Some (map (fun v => TickInfo.Row v false false EmptyString)
                 (arange lo (Z.to_nat span))).

(** [mask.nonzero()[0]]: the indices of the true entries, ascending. *)
Definition nonzero (mask : list bool) : list nat :=
  map fst (filter (fun p => snd p = true) (imap (fun i b => (i, b)) mask)).

(** [column[idx] = v] for an index array [idx] taken from [nonzero] over an
    array as long as [info] (so every index is in range). *)
Definition assign (set : TickInfo.row -> TickInfo.row) (idx : list nat)
    (info : TickInfo) : TickInfo :=
  fold_left (fun acc i => alter set i acc) idx info.

(** [column[i] = v] for one computed index; IndexError out of range. *)
Definition assign1 (set : TickInfo.row -> TickInfo.row) (i : nat)
    (info : TickInfo) : option TickInfo :=
  if bool_decide (i < length info)%nat then Some (alter set i info) else None.

(** [column[:] = v] and [info[column] = v]. *)
Definition assign_all (set : TickInfo.row -> TickInfo.row)
    (info : TickInfo) : TickInfo :=
  map set info.

(** [np.compress(info[flag], info[column])]. *)
Definition compress {A} (flag : TickInfo.row -> bool)
    (column : TickInfo.row -> A) (info : TickInfo) : list A :=
  map column (filter (fun r => flag r = true) info).

(** [idx[mask]] where [mask] is computed from the element the index
    points to. *)
Definition select (keep : nat -> bool) (idx : list nat) : list nat :=
  filter (fun i => keep i = true) idx.

(** Comparison of an integer with a binary64 threshold (Python compares
    the two exactly). *)
Definition lt_float (n : Z) (f : float) : bool :=
  match Py.Q_of_float f with
  | Some q => negb (Qle_bool q (inject_Z n))
  | None => false
  end.
Definition le_float (n : Z) (f : float) : bool :=
  match Py.Q_of_float f with
  | Some q => Qle_bool (inject_Z n) q
  | None => false
  end.

(** ** Frequencies and periods: the services the module imports *)

(** Modelled from the spec: the frequency registry
    ([pandas.tseries.frequencies], not part of this module).  The codes are
    small integers, [get_freq_group] classifies a code into its group. *)
Class FreqGroup : Type := {
  FR_ANN : Z; FR_QTR : Z; FR_MTH : Z; FR_WK : Z; FR_BUS : Z; FR_DAY : Z;
  FR_HR : Z; FR_MIN : Z; FR_SEC : Z; FR_UND : Z;
  get_freq_group : Z -> Z
}.

(** The calendar fields of a period. *)
Inductive field : Type :=
  | year | quarter | month | week | day | hour | minute | second.

(** Modelled from the spec: the calendar/period service
    ([pandas.tseries.period], not part of this module): the field of the
    period with a given ordinal at a given frequency, and the rendering of a
    period with a strftime-style pattern. *)
Class Period : Type := {
  period_field : Z -> field -> Z -> Z;
  strftime : Z -> Z -> string -> string
}.

Section Finders.
Context `{FreqGroup} `{Period}.

(** Modelled from the spec: [PeriodIndex(start=vmin, end=vmax, freq=freq)]
    of [pandas.tseries.period], by its [values]: the contiguous range of
    the ordinals from the first period to the last. *)
Definition PeriodIndex (start end_ : Z) : list Z :=
  arange start (Z.to_nat (end_ - start + 1)).

(** [(current - previous) != 0] as a boolean mask. *)
Definition starts (freq : Z) (dates : list Z) (period : field) : list bool :=
  map (fun d => negb (period_field freq period d
                      - period_field freq period (d - 1) =? 0)) dates.

(** [period_break(dates, period)]: the indices where the field changes. *)
Definition period_break (freq : Z) (dates : list Z) (period : field)
  : list nat :=
  nonzero (starts freq dates period).

(** The local [first_label] of the daily finder; [label_flags[0]] on an
    empty array is an IndexError. *)
Definition first_label (vmin_orig : Q) (label_flags : list nat)
  : option nat :=
  l0 ← label_flags !! 0%nat;
  if bool_decide (l0 = 0%nat) && bool_decide (1 < length label_flags)%nat
     && Py.has_fraction vmin_orig
  then label_flags !! 1%nat
  else Some l0.

(** [start & (field % label_interval == 0)]. *)
Definition start_and_multiple (freq : Z) (dates : list Z) (period : field)
    (label_interval : Z) : list nat :=
  nonzero (map (fun d =>
                  negb (period_field freq period d
                        - period_field freq period (d - 1) =? 0)
                  && (period_field freq period d mod label_interval =? 0))
               dates).

Definition _hour_finder (freq : Z) (vmin_orig : Q) (dates_ : list Z)
    (day_start : list nat) (label_interval : Z) (force_year_start : bool)
    (info : TickInfo) : option TickInfo :=
  let labelled := start_and_multiple freq dates_ hour label_interval in
  let info := assign (TickInfo.set_maj true) day_start info in
  let info := assign (TickInfo.set_min true) labelled info in
  let year_start := period_break freq dates_ year in
  let info := assign (TickInfo.set_fmt "%H:%M") labelled info in
  let info := assign (TickInfo.set_fmt ("%H:%M" +:+ nl +:+ "%d-%b"))
                     day_start info in
  let info := assign (TickInfo.set_fmt
                        ("%H:%M" +:+ nl +:+ "%d-%b" +:+ nl +:+ "%Y"))
                     year_start info in
  if force_year_start && negb (has_level_label year_start vmin_orig)
  then i ← first_label vmin_orig day_start;
       assign1 (TickInfo.set_fmt
                  ("%H:%M" +:+ nl +:+ "%d-%b" +:+ nl +:+ "%Y")) i info
  else Some info.

Definition _minute_finder (freq : Z) (dates_ : list Z)
    (day_start : list nat) (label_interval : Z) (info : TickInfo)
  : TickInfo :=
  let hour_start := period_break freq dates_ hour in
  let labelled := start_and_multiple freq dates_ minute label_interval in
  let info := assign (TickInfo.set_maj true) hour_start info in
  let info := assign (TickInfo.set_min true) labelled info in
  let year_start := period_break freq dates_ year in
  let info := assign (TickInfo.set_fmt "%H:%M") labelled info in
  let info := assign (TickInfo.set_fmt ("%H:%M" +:+ nl +:+ "%d-%b"))
                     day_start info in
  assign (TickInfo.set_fmt ("%H:%M" +:+ nl +:+ "%d-%b" +:+ nl +:+ "%Y"))
         year_start info.

Definition _second_finder (freq : Z) (dates_ : list Z)
    (day_start : list nat) (label_interval : Z) (info : TickInfo)
  : TickInfo :=
  let minute_start := period_break freq dates_ minute in
  let labelled := start_and_multiple freq dates_ second label_interval in
  let info := assign (TickInfo.set_maj true) minute_start info in
  let info := assign (TickInfo.set_min true) labelled info in
  let year_start := period_break freq dates_ year in
  let info := assign (TickInfo.set_fmt "%H:%M:%S") labelled info in
  let info := assign (TickInfo.set_fmt ("%H:%M:%S" +:+ nl +:+ "%d-%b"))
                     day_start info in
  assign (TickInfo.set_fmt ("%H:%M:%S" +:+ nl +:+ "%d-%b" +:+ nl +:+ "%Y"))
         year_start info.

(** The frequency table at the head of [_daily_finder]:
    [(periodsperday, periodsperyear, periodspermonth)], or the ValueError
    of an unexpected frequency. *)
Definition daily_periods (freq : Z) : option (Z * Z * Z) :=
  if FR_HR <=? freq then
    periodsperday ←
      (if freq =? FR_SEC then Some (24 * 60 * 60)
       else if freq =? FR_MIN then Some (24 * 60)
       else if freq =? FR_HR then Some 24
       else None);
    Some (periodsperday, 365 * periodsperday, 28 * periodsperday)
  else if freq =? FR_BUS then Some (-1, 261, 19)
  else if freq =? FR_DAY then Some (-1, 365, 28)
  else if get_freq_group freq =? FR_WK then Some (-1, 52, 3)
  else if freq =? FR_UND then Some (-1, 100, 10)
  else None.

(** The last branch of case 1: the plain day / month / year scheme. *)
Definition _day_finder (freq : Z) (vmin_orig : Q) (dates_ : list Z)
    (day_start month_start : list nat) (info : TickInfo)
  : option TickInfo :=
  let info := assign (TickInfo.set_maj true) month_start info in
  let info := assign (TickInfo.set_min true) day_start info in
  let year_start := period_break freq dates_ year in
  let info := assign (TickInfo.set_fmt "%d") day_start info in
  let info := assign (TickInfo.set_fmt ("%d" +:+ nl +:+ "%b"))
                     month_start info in
  let info := assign (TickInfo.set_fmt
                        ("%d" +:+ nl +:+ "%b" +:+ nl +:+ "%Y"))
                     year_start info in
  if negb (has_level_label year_start vmin_orig) then
    i ← (if negb (has_level_label month_start vmin_orig)
         then first_label vmin_orig day_start
         else first_label vmin_orig month_start);
    assign1 (TickInfo.set_fmt ("%d" +:+ nl +:+ "%b" +:+ nl +:+ "%Y")) i info
  else Some info.

(** Case 1 of [_daily_finder]: less than a month. *)
Definition daily_case1 (freq : Z) (vmin_orig : Q) (dates_ : list Z)
    (span periodsperday : Z) (info : TickInfo) : option TickInfo :=
  let day_start := period_break freq dates_ day in
  let month_start := period_break freq dates_ month in
  let ppd := Py.float_of_Z periodsperday in
  let second_finder := _second_finder freq dates_ day_start in
  let minute_finder := _minute_finder freq dates_ day_start in
  let hour_finder := _hour_finder freq vmin_orig dates_ day_start in
  if lt_float span (ppd / 12000)%float then Some (second_finder 1 info)
  else if lt_float span (ppd / 6000)%float then Some (second_finder 2 info)
  else if lt_float span (ppd / 2400)%float then Some (second_finder 5 info)
  else if lt_float span (ppd / 1200)%float then Some (second_finder 10 info)
  else if lt_float span (ppd / 800)%float then Some (second_finder 15 info)
  else if lt_float span (ppd / 400)%float then Some (second_finder 30 info)
  else if lt_float span (ppd / 150)%float then Some (minute_finder 1 info)
  else if lt_float span (ppd / 70)%float then Some (minute_finder 2 info)
  else if lt_float span (ppd / 24)%float then Some (minute_finder 5 info)
  else if lt_float span (ppd / 12)%float then Some (minute_finder 15 info)
  else if lt_float span (ppd / 6)%float then Some (minute_finder 30 info)
  else if lt_float span (ppd / 2.5)%float then hour_finder 1 false info
  else if lt_float span (ppd / 1.5)%float then hour_finder 2 false info
  else if lt_float span (ppd * 1.25)%float then hour_finder 3 false info
  else if lt_float span (ppd * 2.5)%float then hour_finder 6 true info
  else if span <? periodsperday * 4 then hour_finder 12 true info
  else _day_finder freq vmin_orig dates_ day_start month_start info.

(** Case 2: less than three months. *)
Definition daily_case2 (freq : Z) (vmin_orig : Q) (dates_ : list Z)
    (info : TickInfo) : option TickInfo :=
  let month_start := period_break freq dates_ month in
  let info := assign (TickInfo.set_maj true) month_start info in
  let info :=
    if freq <? FR_HR then assign_all (TickInfo.set_min true) info
    else assign (TickInfo.set_min true) (period_break freq dates_ day) info in
  let week_start := period_break freq dates_ week in
  let year_start := period_break freq dates_ year in
  let info := assign (TickInfo.set_fmt "%d") week_start info in
  let info := assign (TickInfo.set_fmt (nl +:+ nl +:+ "%b"))
                     month_start info in
  let info := assign (TickInfo.set_fmt (nl +:+ nl +:+ "%b" +:+ nl +:+ "%Y"))
                     year_start info in
  if negb (has_level_label year_start vmin_orig) then
    i ← (if negb (has_level_label month_start vmin_orig)
         then first_label vmin_orig week_start
         else first_label vmin_orig month_start);
    assign1 (TickInfo.set_fmt (nl +:+ nl +:+ "%b" +:+ nl +:+ "%Y")) i info
  else Some info.

(** Case 3: less than 14 months. *)
Definition daily_case3 (freq : Z) (vmin_orig : Q) (dates_ : list Z)
    (info : TickInfo) : option TickInfo :=
  let year_start := period_break freq dates_ year in
  let month_start := period_break freq dates_ month in
  let week_start := period_break freq dates_ week in
  let info := assign (TickInfo.set_maj true) month_start info in
  let info := assign (TickInfo.set_min true) week_start info in
  let info := assign (TickInfo.set_min false) year_start info in
  let info := assign (TickInfo.set_min false) month_start info in
  let info := assign (TickInfo.set_fmt "%b") month_start info in
  let info := assign (TickInfo.set_fmt ("%b" +:+ nl +:+ "%Y"))
                     year_start info in
  if negb (has_level_label year_start vmin_orig) then
    i ← first_label vmin_orig month_start;
    assign1 (TickInfo.set_fmt ("%b" +:+ nl +:+ "%Y")) i info
  else Some info.

(** Case 4: less than 2.5 years. *)
Definition daily_case4 (freq : Z) (dates_ : list Z) (info : TickInfo)
  : TickInfo :=
  let year_start := period_break freq dates_ year in
  let quarter_start := period_break freq dates_ quarter in
  let month_start := period_break freq dates_ month in
  let info := assign (TickInfo.set_maj true) quarter_start info in
  let info := assign (TickInfo.set_min true) month_start info in
  let info := assign (TickInfo.set_fmt "%b") quarter_start info in
  assign (TickInfo.set_fmt ("%b" +:+ nl +:+ "%Y")) year_start info.

(** The second case 4: less than 4 years. *)
Definition daily_case4b (freq : Z) (dates_ : list Z) (info : TickInfo)
  : TickInfo :=
  let year_start := period_break freq dates_ year in
  let month_start := period_break freq dates_ month in
  let info := assign (TickInfo.set_maj true) year_start info in
  let info := assign (TickInfo.set_min true) month_start info in
  let info := assign (TickInfo.set_min false) year_start info in
  let month_break i :=
    period_field freq month (nth i dates_ 0) in
  let jan_or_jul :=
    select (fun i => (month_break i =? 1) || (month_break i =? 7))
           month_start in
  let info := assign (TickInfo.set_fmt "%b") jan_or_jul info in
  assign (TickInfo.set_fmt ("%b" +:+ nl +:+ "%Y")) year_start info.

(** Case 5: less than 11 years. *)
Definition daily_case5 (freq : Z) (dates_ : list Z) (info : TickInfo)
  : TickInfo :=
  let year_start := period_break freq dates_ year in
  let quarter_start := period_break freq dates_ quarter in
  let info := assign (TickInfo.set_maj true) year_start info in
  let info := assign (TickInfo.set_min true) quarter_start info in
  let info := assign (TickInfo.set_min false) year_start info in
  assign (TickInfo.set_fmt "%Y") year_start info.

(** Case 6: more than 11 years. *)
Definition daily_case6 (freq : Z) (dates_ : list Z)
    (span periodsperyear : Z) (info : TickInfo) : TickInfo :=
  let year_start := period_break freq dates_ year in
  let year_break i := period_field freq year (nth i dates_ 0) in
  let nyears := span / periodsperyear in
  let '(min_anndef, maj_anndef) := _get_default_annual_spacing nyears in
  let major_idx :=
    select (fun i => year_break i mod maj_anndef =? 0) year_start in
  let info := assign (TickInfo.set_maj true) major_idx info in
  let minor_idx :=
    select (fun i => year_break i mod min_anndef =? 0) year_start in
  let info := assign (TickInfo.set_min true) minor_idx info in
  assign (TickInfo.set_fmt "%Y") major_idx info.

(** [_daily_finder(vmin, vmax, freq)]. *)
Definition _daily_finder (vmin vmax : Q) (freq : Z) : option TickInfo :=
  '(periodsperday, periodsperyear, periodspermonth) ← daily_periods freq;
  let vmin_orig := vmin in
  let '(vmin, vmax) := (Py.int vmin, Py.int vmax) in
  let span := vmax - vmin + 1 in
  let dates_ := PeriodIndex vmin vmax in
  info ← zeros span vmin;
  info ← assign1 (TickInfo.set_maj true) 0 info;
  info ← assign1 (TickInfo.set_maj true) (length info - 1) info;
  let ppy := Py.float_of_Z periodsperyear in
  if span <=? periodspermonth then
    daily_case1 freq vmin_orig dates_ span periodsperday info
  else if span <=? periodsperyear / 4 then
    daily_case2 freq vmin_orig dates_ info
  else if le_float span (1.15 * ppy)%float then
    daily_case3 freq vmin_orig dates_ info
  else if le_float span (2.5 * ppy)%float then
    Some (daily_case4 freq dates_ info)
  else if span <=? 4 * periodsperyear then
    Some (daily_case4b freq dates_ info)
  else if span <=? 11 * periodsperyear then
    Some (daily_case5 freq dates_ info)
  else
    Some (daily_case6 freq dates_ span periodsperyear info).

(** [(dates_ % k == r).nonzero()[0]]. *)
Definition where_mod (dates_ : list Z) (k r : Z) : list nat :=
  nonzero (map (fun d => d mod k =? r) dates_).

(** The fallback of the first band of the monthly and quarterly finders:
    [idx = 1 if dates_.size > 1 else 0; info_fmt[idx] = label]. *)
Definition label_first (label : string) (dates_ : list Z) (info : TickInfo)
  : option TickInfo :=
  let idx := if bool_decide (1 < length dates_)%nat then 1%nat else 0%nat in
  assign1 (TickInfo.set_fmt label) idx info.

(** [_monthly_finder(vmin, vmax, freq)]. *)
Definition _monthly_finder (vmin vmax : Q) (freq : Z) : option TickInfo :=
  let periodsperyear := 12 in
  let vmin_orig := vmin in
  let '(vmin, vmax) := (Py.int vmin, Py.int vmax) in
  let span := vmax - vmin + 1 in
  info ← zeros span vmin;
  let dates_ := arange vmin (Z.to_nat span) in
  let year_start := where_mod dates_ 12 0 in
  let ppy := Py.float_of_Z periodsperyear in
  if le_float span (1.15 * ppy)%float then
    let info := assign (TickInfo.set_maj true) year_start info in
    let info := assign_all (TickInfo.set_min true) info in
    let info := assign_all (TickInfo.set_fmt "%b") info in
    let info := assign (TickInfo.set_fmt ("%b" +:+ nl +:+ "%Y"))
                       year_start info in
    if negb (has_level_label year_start vmin_orig)
    then label_first ("%b" +:+ nl +:+ "%Y") dates_ info
    else Some info
  else if le_float span (2.5 * ppy)%float then
    let quarter_start := where_mod dates_ 3 0 in
    let info := assign (TickInfo.set_maj true) year_start info in
    let info := assign (TickInfo.set_fmt "True") quarter_start info in
    let info := assign_all (TickInfo.set_min true) info in
    let info := assign (TickInfo.set_fmt "%b") quarter_start info in
    Some (assign (TickInfo.set_fmt ("%b" +:+ nl +:+ "%Y")) year_start info)
  else if span <=? 4 * periodsperyear then
    let info := assign (TickInfo.set_maj true) year_start info in
    let info := assign_all (TickInfo.set_min true) info in
    let jan_or_jul :=
      nonzero (map (fun d => (d mod 12 =? 0) || (d mod 12 =? 6)) dates_) in
    let info := assign (TickInfo.set_fmt "%b") jan_or_jul info in
    Some (assign (TickInfo.set_fmt ("%b" +:+ nl +:+ "%Y")) year_start info)
  else if span <=? 11 * periodsperyear then
    let quarter_start := where_mod dates_ 3 0 in
    let info := assign (TickInfo.set_maj true) year_start info in
    let info := assign (TickInfo.set_min true) quarter_start info in
    Some (assign (TickInfo.set_fmt "%Y") year_start info)
  else
    let nyears := span / periodsperyear in
    let '(min_anndef, maj_anndef) := _get_default_annual_spacing nyears in
    let years i := nth i dates_ 0 / 12 + 1 in
    let major_idx :=
      select (fun i => years i mod maj_anndef =? 0) year_start in
    let info := assign (TickInfo.set_maj true) major_idx info in
    let info :=
      assign (TickInfo.set_min true)
             (select (fun i => years i mod min_anndef =? 0) year_start)
             info in
    Some (assign (TickInfo.set_fmt "%Y") major_idx info).

(** [_quarterly_finder(vmin, vmax, freq)]. *)
Definition _quarterly_finder (vmin vmax : Q) (freq : Z) : option TickInfo :=
  let periodsperyear := 4 in
  let vmin_orig := vmin in
  let '(vmin, vmax) := (Py.int vmin, Py.int vmax) in
  let span := vmax - vmin + 1 in
  info ← zeros span vmin;
  let dates_ := arange vmin (Z.to_nat span) in
  let year_start := where_mod dates_ 4 0 in
  let ppy := Py.float_of_Z periodsperyear in
  if le_float span (3.5 * ppy)%float then
    let info := assign (TickInfo.set_maj true) year_start info in
    let info := assign_all (TickInfo.set_min true) info in
    let info := assign_all (TickInfo.set_fmt "Q%q") info in
    let info := assign (TickInfo.set_fmt ("Q%q" +:+ nl +:+ "%F"))
                       year_start info in
    if negb (has_level_label year_start vmin_orig)
    then label_first ("Q%q" +:+ nl +:+ "%F") dates_ info
    else Some info
  else if span <=? 11 * periodsperyear then
    let info := assign (TickInfo.set_maj true) year_start info in
    let info := assign_all (TickInfo.set_min true) info in
    Some (assign (TickInfo.set_fmt "%F") year_start info)
  else
    let years i := nth i dates_ 0 / 4 + 1 in
    let nyears := span / periodsperyear in
    let '(min_anndef, maj_anndef) := _get_default_annual_spacing nyears in
    let major_idx :=
      select (fun i => years i mod maj_anndef =? 0) year_start in
    let info := assign (TickInfo.set_maj true) major_idx info in
    let info :=
      assign (TickInfo.set_min true)
             (select (fun i => years i mod min_anndef =? 0) year_start)
             info in
    Some (assign (TickInfo.set_fmt "%F") major_idx info).

(** [_annual_finder(vmin, vmax, freq)]; [vmax + 1] is a binary64 sum. *)
Definition _annual_finder (vmin vmax : Q) (freq : Z) : option TickInfo :=
  vmax_plus_1 ← Py.fadd vmax 1;
  let '(vmin, vmax) := (Py.int vmin, Py.int vmax_plus_1) in
  let span := vmax - vmin + 1 in
  info ← zeros span vmin;
  let dates_ := arange vmin (Z.to_nat span) in
  let '(min_anndef, maj_anndef) := _get_default_annual_spacing span in
  let major_idx := where_mod dates_ maj_anndef 0 in
  let info := assign (TickInfo.set_maj true) major_idx info in
  let info := assign (TickInfo.set_min true)
                     (where_mod dates_ min_anndef 0) info in
  Some (assign (TickInfo.set_fmt "%Y") major_idx info).

(** [get_finder(freq)] for a frequency code; NotImplementedError for an
    unsupported one. *)
Definition get_finder (freq : Z) : option (Q -> Q -> Z -> option TickInfo) :=
  let fgroup := get_freq_group freq in
  if fgroup =? FR_ANN then Some _annual_finder
  else if fgroup =? FR_QTR then Some _quarterly_finder
  else if freq =? FR_MTH then Some _monthly_finder
  else if (FR_BUS <=? freq) || (freq =? FR_UND) || (fgroup =? FR_WK)
  then Some _daily_finder
  else None.

End Finders.

(** ** The dynamic locator and formatter *)

(** The plot object the locator and the formatter of one axis share: the
    view interval seen last and the cached tick information. *)
Record plot_obj : Type := PlotObj {
  view_interval : option (Q * Q);
  date_axis_info : option TickInfo
}.

(** The mutable world of a draw pass: the shared plot object, and the
    number of finder invocations so far (the observable of the cache). *)
Record world : Type := World {
  plot : plot_obj;
  finder_calls : nat
}.

(** Computations that read and write the world and may raise: the world
    is kept when an exception escapes. *)
Definition M (A : Type) : Type := world -> option A * world.

Definition ret {A} (a : A) : M A := fun w => (Some a, w).
Definition raise {A} : M A := fun w => (None, w).
Definition bind {A B} (m : M A) (k : A -> M B) : M B :=
  fun w => match m w with
           | (Some a, w') => k a w'
           | (None, w') => (None, w')
           end.
Definition get_plot : M plot_obj := fun w => (Some (plot w), w).
Definition set_plot (p : plot_obj) : M unit :=
  fun w => (Some tt, World p (finder_calls w)).

#[global] Instance M_ret : MRet M := @ret.
#[global] Instance M_bind : MBind M := fun A B k m => bind m k.

(** [self.finder(vmin, vmax, self.freq)], counted. *)
Definition call_finder (finder : Q -> Q -> Z -> option TickInfo)
    (vmin vmax : Q) (freq : Z) : M TickInfo :=
  fun w => (finder vmin vmax freq, World (plot w) (S (finder_calls w))).

(** [vi != self.plot_obj.view_interval] on tuples of floats. *)
Definition vi_differs (vi : Q * Q) (stored : option (Q * Q)) : bool :=
  match stored with
  | Some old => negb (Qeq_bool vi.1 old.1 && Qeq_bool vi.2 old.2)
  | None => true
  end.

(** The prologue of [TimeSeries_DateLocator.__call__] and of
    [TimeSeries_DateFormatter.set_locs]: drop the cache when the view
    interval moved, store the interval, order its ends. *)
Definition sync_view (vi : Q * Q) : M (Q * Q) :=
  p ← get_plot;
  let info := if vi_differs vi (view_interval p) then None
              else date_axis_info p in
  set_plot (PlotObj (Some vi) info);;
  let '(vmin, vmax) := vi in
  mret (if negb (Qle_bool vmin vmax) then (vmax, vmin) else (vmin, vmax)).

(** The cached tick information, built by the finder when absent. *)
Definition axis_info (finder : Q -> Q -> Z -> option TickInfo)
    (vmin vmax : Q) (freq : Z) : M TickInfo :=
  p ← get_plot;
  match date_axis_info p with
  | Some info => mret info
  | None =>
      info ← call_finder finder vmin vmax freq;
      set_plot (PlotObj (view_interval p) (Some info));;
      mret info
  end.

Module TimeSeries_DateLocator.

Record t : Type := Locator {
  freq : Z;
  base : Z;
  isminor : bool;
  isdynamic : bool;
  finder : Q -> Q -> Z -> option TickInfo
}.

Definition __init__ `{FreqGroup} `{Period} (freq : Z)
    (minor_locator dynamic_mode : bool) (base : Z) : option t :=
  finder ← get_finder freq;
  Some (Locator freq base minor_locator dynamic_mode finder).

Definition _get_default_locs (self : t) (vmin vmax : Q) : M (list Z) :=
  locator ← axis_info (finder self) vmin vmax (freq self);
  if isminor self
  then mret (compress TickInfo.min TickInfo.val locator)
  else mret (compress TickInfo.maj TickInfo.val locator).

(** [__call__], given what [self.axis.get_view_interval()] returns.  In
    static mode the source calls [range] on floats, a TypeError. *)
Definition __call__ (self : t) (vi : Q * Q) : M (list Z) :=
  '(vmin, vmax) ← sync_view vi;
  if isdynamic self then _get_default_locs self vmin vmax
  else raise.

End TimeSeries_DateLocator.

Module TimeSeries_DateFormatter.

Record t : Type := Formatter {
  freq : Z;
  locs : list Q;
  formatdict : option (gmap Z string);
  isminor : bool;
  isdynamic : bool;
  finder : Q -> Q -> Z -> option TickInfo
}.

Definition __init__ `{FreqGroup} `{Period} (freq : Z)
    (minor_locator dynamic_mode : bool) : option t :=
  finder ← get_finder freq;
  Some (Formatter freq [] None minor_locator dynamic_mode finder).

(** [dict([(x, f) for (x, _, _, f) in format])]: a later pair replaces an
    earlier one with the same key. *)
Definition dict_of (format : TickInfo) : gmap Z string :=
  fold_left (fun d r => <[TickInfo.val r := TickInfo.fmt r]> d) format ∅.

Definition _set_default_format (self : t) (vmin vmax : Q) : M t :=
  info ← axis_info (finder self) vmin vmax (freq self);
  let format :=
    if isminor self
    then filter (fun r => TickInfo.min r && negb (TickInfo.maj r) = true) info
    else filter (fun r => TickInfo.maj r = true) info in
  mret (Formatter (freq self) (locs self) (Some (dict_of format))
                  (isminor self) (isdynamic self) (finder self)).

(** [set_locs(locs)], given what [self.axis.get_view_interval()]
    returns. *)
Definition set_locs (self : t) (locs : list Q) (vi : Q * Q) : M t :=
  let self := Formatter (freq self) locs (formatdict self)
                        (isminor self) (isdynamic self) (finder self) in
  '(vmin, vmax) ← sync_view vi;
  _set_default_format self vmin vmax.

(** The key of the label map a float position hits: an integral float
    equals (and hashes as) the integer, any other float matches no key. *)
Definition key_of (x : Q) : option Z :=
  if Py.has_fraction x then None else Some (Qfloor x).

(** [self.formatdict.pop(x, '')]. *)
Definition pop (x : Q) (d : gmap Z string) : string * gmap Z string :=
  match key_of x with
  | Some k => match d !! k with
              | Some fmt => (fmt, delete k d)
              | None => (EmptyString, d)
              end
  | None => (EmptyString, d)
  end.

(** [__call__(x, pos)]: the label and the formatter afterwards. *)
Definition __call__ `{Period} (self : t) (x : Q) : string * t :=
  match formatdict self with
  | None => (EmptyString, self)
  | Some d =>
      let '(fmt, d) := pop x d in
      (strftime (freq self) (Py.int x) fmt,
       Formatter (freq self) (locs self) (Some d)
                 (isminor self) (isdynamic self) (finder self))
  end.

(** The formatter after it has answered the queries [xs] in turn. *)
Definition after_queries `{Period} (self : t) (xs : list Q) : t :=
  fold_left (fun self x => (__call__ self x).2) xs self.

End TimeSeries_DateFormatter.

(** ** Clock times *)

(** A [datetime.time]. *)
Record time : Type := Time {
  t_hour : Z; t_minute : Z; t_second : Z; t_microsecond : Z
}.

(** [_to_ordinalf(tm)]: the integer seconds are exact, the microseconds are
    divided and added in binary64. *)
Definition _to_ordinalf (tm : time) : float :=
  (Py.float_of_Z (t_hour tm * 3600 + t_minute tm * 60 + t_second tm)
   + Py.float_of_Z (t_microsecond tm) / 1e6)%float.

(** [int(x)] of a binary64 value; ValueError or OverflowError on nan and
    the infinities. *)
Definition int_of_float (x : float) : option Z :=
  Py.int <$> Py.Q_of_float x.

(** [datetime.time(h, m, s, us)]: ValueError outside the ranges. *)
Definition make_time (h m s us : Z) : option time :=
  if (0 <=? h) && (h <? 24) && (0 <=? m) && (m <? 60)
     && (0 <=? s) && (s <? 60) && (0 <=? us) && (us <? 1000000)
  then Some (Time h m s us) else None.

Module TimeFormatter.

(** [__call__(x, pos)] up to the final [strftime]: the time that is
    rendered and the pattern it is rendered with. *)
Definition __call__ (x : float) : option (time * string) :=
  let fmt := "%H:%M:%S" in
  s ← int_of_float x;
  us ← int_of_float ((x - Py.float_of_Z s) * 1e6)%float;
  let '(m, s) := (s / 60, s mod 60) in
  let '(h, m) := (m / 60, m mod 60) in
  let fmt := if negb (us =? 0) then fmt +:+ ".%f" else fmt in
  tm ← make_time h m s us;
  Some (tm, fmt).

End TimeFormatter.

(** ** The date-time converter *)

(** A [datetime.datetime] (or [Timestamp]): the proleptic Gregorian
    ordinal of its date, its clock fields, and what
    [tzinfo.utcoffset(dt)] gives, in microseconds: [None] without a
    [tzinfo], [Some None] when the [tzinfo] has no offset. *)
Record datetime : Type := Datetime {
  toordinal : Z;
  dt_hour : Z; dt_minute : Z; dt_second : Z; dt_microsecond : Z;
  utcoffset : option (option Z)
}.

(** The values [convert] is handed. *)
Inductive value : Type :=
  | VDatetime (dt : datetime)
  | VDate (ordinal : Z)
  | VTime (tm : time)
  | VInt (n : Z)
  | VFloat (x : float)
  | VStr (s : string)
  | VIndex (items : list value)
  | VSeq (items : list value)
  | VOther (repr : string).

(** Modelled from the spec: the services outside this module that the
    converter calls: the parser ([tools.to_datetime]) and matplotlib's
    [dates.date2num]; [None] is a raised exception. *)
Class Services : Type := {
  to_datetime : value -> option value;
  date2num : time -> option float
}.

Definition HOURS_PER_DAY : float := 24%float.
Definition MINUTES_PER_DAY : float := (60 * HOURS_PER_DAY)%float.
Definition SECONDS_PER_DAY : float := (60 * MINUTES_PER_DAY)%float.
Definition MUSECONDS_PER_DAY : float := (1e6 * SECONDS_PER_DAY)%float.

(** [dt -= delta]: date-time arithmetic in microseconds; OverflowError
    outside the years 1 to 9999. *)
Definition datetime_sub (dt : datetime) (delta : Z) : option datetime :=
  let per_day := 86400000000 in
  let us := ((dt_hour dt * 60 + dt_minute dt) * 60 + dt_second dt) * 1000000
            + dt_microsecond dt - delta in
  let ord := toordinal dt + us / per_day in
  let us := us mod per_day in
  if (1 <=? ord) && (ord <=? 3652059) then
    Some (Datetime ord (us / 3600000000) (us / 60000000 mod 60)
                   (us / 1000000 mod 60) (us mod 1000000) (utcoffset dt))
  else None.

(** [_dt_to_float_ordinal(dt)]; AttributeError on anything without
    [toordinal]. *)
Definition _dt_to_float_ordinal (dt : value) : option float :=
  match dt with
  | VDatetime dt =>
      dt ← match utcoffset dt with
           | Some (Some delta) => datetime_sub dt delta
           | _ => Some dt
           end;
      let base := Py.float_of_Z (toordinal dt) in
      Some (base
            + (Py.float_of_Z (dt_hour dt) / HOURS_PER_DAY
               + Py.float_of_Z (dt_minute dt) / MINUTES_PER_DAY
               + Py.float_of_Z (dt_second dt) / SECONDS_PER_DAY
               + Py.float_of_Z (dt_microsecond dt) / MUSECONDS_PER_DAY))%float
  | VDate ordinal => Some (Py.float_of_Z ordinal)
  | _ => None
  end.

Module DatetimeConverter.
Section Convert.
Context `{Services}.

(** The local [try_parse]: any exception gives the argument back. *)
Definition try_parse (values : value) : value :=
  match to_datetime values ≫= _dt_to_float_ordinal with
  | Some x => VFloat x
  | None => values
  end.

(** [convert(values, unit, axis)]; neither [unit] nor [axis] is read. *)
Definition convert (values : value) : option value :=
  match values with
  | VDatetime _ | VDate _ => VFloat <$> _dt_to_float_ordinal values
  | VTime tm => VFloat <$> date2num tm
  | VInt _ | VFloat _ => Some values
  | VStr _ => Some (try_parse values)
  | VIndex items => Some (VIndex (map try_parse items))
  | VSeq items => Some (VSeq (map try_parse items))
  | VOther _ => Some values
  end.

(** A value whose parse attempt fails: the parser raises, or what it
    returns cannot be turned into an ordinal. *)
Definition parse_fails (v : value) : Prop :=
  to_datetime v ≫= _dt_to_float_ordinal = None.

End Convert.
End DatetimeConverter.

(** What the locator returns from given tick information. *)
Definition positions (self : TimeSeries_DateLocator.t) (info : TickInfo)
  : list Z :=
  if TimeSeries_DateLocator.isminor self
  then compress TickInfo.min TickInfo.val info
  else compress TickInfo.maj TickInfo.val info.

(** ** Invariants of the assignments *)

(** An update of a row that keeps its ordinal and does not clear its major
    flag. *)
Definition gentle (set : TickInfo.row -> TickInfo.row) : Prop :=
  forall r, TickInfo.val (set r) = TickInfo.val r
            /\ (TickInfo.maj r = true -> TickInfo.maj (set r) = true).

(** [info'] has the rows of [info], with the same ordinals and at least the
    major flags of [info]. *)
Definition grows (info info' : TickInfo) : Prop :=
  Forall2 (fun r r' => TickInfo.val r' = TickInfo.val r
                       /\ (TickInfo.maj r = true -> TickInfo.maj r' = true))
          info info'.

(** The flag of the first and of the last row, if any. *)
Definition first_major (info : TickInfo) : option bool :=
  TickInfo.maj <$> head info.
Definition last_major (info : TickInfo) : option bool :=
  TickInfo.maj <$> last info.

(** ** The rows of the monthly bands *)

(** The row of a month in the band up to 2.5 years: every month is a minor
    tick, a year start is major and labelled with the year, the other
    quarter starts are labelled with the month. *)
Definition monthly_row_quarters (v : Z) : TickInfo.row :=
  TickInfo.Row v (v mod 12 =? 0) true
    (if v mod 12 =? 0 then "%b" +:+ nl +:+ "%Y"
     else if v mod 3 =? 0 then "%b" else "").

(** The row of a month in the band up to 4 years, the one the scenario of
    the specification describes: every month is a minor tick, a year start
    (January) is major and labelled with the year, July is labelled with
    the month. *)
Definition monthly_row_half_years (v : Z) : TickInfo.row :=
  TickInfo.Row v (v mod 12 =? 0) true
    (if v mod 12 =? 0 then "%b" +:+ nl +:+ "%Y"
     else if v mod 12 =? 6 then "%b" else "").

(** ** Instances for the examples *)

(** A dynamic major locator on a monthly axis, a major formatter for the
    same axis, and the world before the first draw. *)
Definition monthly_locator : TimeSeries_DateLocator.t :=
  TimeSeries_DateLocator.Locator 3000 1 false true _monthly_finder.
Definition monthly_formatter : TimeSeries_DateFormatter.t :=
  TimeSeries_DateFormatter.Formatter 3000 [] None false true _monthly_finder.
Definition first_draw : world := World (PlotObj None None) 0.

(** The formatter and the world after [set_locs] on the months 0 to 29. *)
Definition monthly_drawn : option TimeSeries_DateFormatter.t * world :=
  TimeSeries_DateFormatter.set_locs monthly_formatter [] (0, 29)%Q first_draw.
Definition monthly_drawn_formatter : TimeSeries_DateFormatter.t :=
  default monthly_formatter monthly_drawn.1.


(** The frequency codes as pandas numbers them: a thousand per group. *)
Definition pandas_freq : FreqGroup := {|
  FR_ANN := 1000; FR_QTR := 2000; FR_MTH := 3000; FR_WK := 4000;
  FR_BUS := 5000; FR_DAY := 6000; FR_HR := 7000; FR_MIN := 8000;
  FR_SEC := 9000; FR_UND := -10000;
  get_freq_group := fun freq => freq / 1000 * 1000
|}.

(** A schematic calendar for daily ordinals (weeks of 7 days, months of
    30, quarters of 90, years of 360) that renders a period as its
    pattern. *)
Definition schematic_period : Period := {|
  period_field := fun freq f ordinal =>
    match f with
    | year => ordinal / 360
    | quarter => ordinal / 90 mod 4 + 1
    | month => ordinal / 30 mod 12 + 1
    | week => ordinal / 7
    | day => ordinal mod 30 + 1
    | _ => 0
    end;
  strftime := fun freq ordinal fmt => fmt
|}.

(** A parser that recognises nothing, and a [date2num] that fails on
    times. *)
Definition no_services : Services := {|
  to_datetime := fun v => None;
  date2num := fun tm => None
|}.

(** ** The clock-time converter *)

(** [parsed.time()] of a [datetime]. *)
Definition datetime_time (dt : datetime) : time :=
  Time (dt_hour dt) (dt_minute dt) (dt_second dt) (dt_microsecond dt).

Module TimeConverter.
Section Convert.
Context `{Services}.

(** [time2num(d)]: a string is parsed and must give a [datetime]
    (ValueError otherwise), a time gives its ordinal, anything else is
    returned as it is. *)
Definition time2num (d : value) : option value :=
  match d with
  | VStr _ =>
      parsed ← to_datetime d;
      match parsed with
      | VDatetime dt => Some (VFloat (_to_ordinalf (datetime_time dt)))
      | _ => None
      end
  | VTime tm => Some (VFloat (_to_ordinalf tm))
  | _ => Some d
  end.

(** [convert(value, unit, axis)]; neither [unit] nor [axis] is read. *)
Definition convert (values : value) : option value :=
  match values with
  | VStr _ | VTime _ | VInt _ | VFloat _ => time2num values
  | VIndex items => VIndex <$> mapM time2num items
  | VSeq items => VSeq <$> mapM time2num items
  | _ => Some values
  end.

End Convert.
End TimeConverter.

(** ** The period converter *)

(** The values [PeriodConverter.convert] is handed: a [Period] is given by
    its ordinal and its frequency. *)
Inductive datevalue : Type :=
  | PPeriod (ordinal freq : Z)
  | PStr (s : string)
  | PDatetime (dt : datetime)
  | PDate (ordinal : Z)
  | PTime (tm : time)
  | PInt (n : Z)
  | PFloat (x : float)
  | PNone
  | PArray (items : list datevalue)
  | PIndex (items : list datevalue)
  | PList (items : list datevalue)
  | POther (repr : string).

(** Modelled from the spec: the period arithmetic outside this module:
    the ordinal of [Period(date, freq)] for a string, a date-time, a date or
    a time, and the ordinal of [period.asfreq(freq)]; [None] is a raised
    exception. *)
Class PeriodService : Type := {
  period_ordinal : datevalue -> Z -> option Z;
  asfreq_ordinal : Z -> Z -> Z -> option Z
}.

Section PeriodConverter.
Context `{PeriodService}.

(** [get_datevalue(date, freq)]; an array of size one is taken for a
    number; ValueError on anything unrecognised. *)
Definition get_datevalue (date : datevalue) (freq : Z) : option datevalue :=
  match date with
  | PPeriod ordinal from => PInt <$> asfreq_ordinal ordinal from freq
  | PStr _ | PDatetime _ | PDate _ | PTime _ =>
      PInt <$> period_ordinal date freq
  | PInt _ | PFloat _ => Some date
  | PArray [_] => Some date
  | PNone => Some PNone
  | _ => None
  end.

(** [PeriodConverter.convert(values, units, axis)], given the [freq] of
    the axis if it has one (TypeError if not). *)
Definition period_convert (values : datevalue) (axis_freq : option Z)
  : option datevalue :=
  freq ← axis_freq;
  match values with
  | PStr _ | PDatetime _ | PPeriod _ _ | PDate _ | PTime _
  | PInt _ | PFloat _ => get_datevalue values freq
  | PIndex items => PIndex <$> mapM (fun x => get_datevalue x freq) items
  | PList items | PArray items =>
      PList <$> mapM (fun x => get_datevalue x freq) items
  | _ => Some values
  end.

End PeriodConverter.

(** ** Autoscaling *)

(** [TimeSeries_DateLocator.autoscale()], given what
    [self.axis.get_data_interval()] returns, up to the final call of
    matplotlib's [nonsingular]: the two limits it is called with.
    [locs[[0, -1]]] on an empty array is an IndexError. *)
Definition autoscale (self : TimeSeries_DateLocator.t)
    (data_interval : Q * Q) : M (Z * Z) :=
  let '(vmin, vmax) := data_interval in
  locs ← TimeSeries_DateLocator._get_default_locs self vmin vmax;
  match head locs, last locs with
  | Some vmin, Some vmax =>
      if vmin =? vmax then mret (vmin - 1, vmax + 1) else mret (vmin, vmax)
  | _, _ => raise
  end.

(** ** The rows a formatter labels *)

(** The rows of the role of a formatter: for the minor one the rows that
    are minor and not major, for the major one the major rows. *)
Definition role_rows (isminor : bool) (info : TickInfo) : TickInfo :=
  if isminor
  then filter (fun r => TickInfo.min r && negb (TickInfo.maj r) = true) info
  else filter (fun r => TickInfo.maj r = true) info.

(** The formatter with new locations and the label map of [info]. *)
Definition with_labels (self : TimeSeries_DateFormatter.t) (locs : list Q)
    (info : TickInfo) : TimeSeries_DateFormatter.t :=
  TimeSeries_DateFormatter.Formatter
    (TimeSeries_DateFormatter.freq self) locs
    (Some (TimeSeries_DateFormatter.dict_of
             (role_rows (TimeSeries_DateFormatter.isminor self) info)))
    (TimeSeries_DateFormatter.isminor self)
    (TimeSeries_DateFormatter.isdynamic self)
    (TimeSeries_DateFormatter.finder self).

(** A period service for the examples: no string or date makes a period,
    and changing the frequency keeps the ordinal. *)
Definition no_periods : PeriodService := {|
  period_ordinal := fun date freq => None;
  asfreq_ordinal := fun ordinal from freq => Some ordinal
|}.

(** * Properties *)

(** ** Python numerics *)

Lemma Qle_bool_false (x y : Q) : Qle_bool x y = false <-> (y < x)%Q.
Proof.
  pose proof (Qle_bool_iff x y) as Hiff.
  destruct (Qle_bool x y); split; intros Hx; try discriminate.
  - apply Qlt_not_le in Hx. exfalso. apply Hx, Hiff. reflexivity.
  - apply Qnot_le_lt. intros Hle. apply Hiff in Hle. discriminate.
  - reflexivity.
Qed.

Lemma mod1_range (x : Q) : (0 <= Py.mod1 x)%Q /\ (Py.mod1 x < 1)%Q.
Proof.
  unfold Py.mod1. pose proof (Qfloor_le x). pose proof (Qlt_floor x).
  rewrite inject_Z_plus in H0. change (inject_Z 1) with 1%Q in H0.
  split; lra.
Qed.

(** [x % 1 > 0] says that [x] is not an integer. *)
Lemma has_fraction_spec (x : Q) :
  Py.has_fraction x = true <-> ~ exists z : Z, (x == inject_Z z)%Q.
Proof.
  unfold Py.has_fraction. rewrite negb_true_iff, Qle_bool_false.
  unfold Py.mod1. split.
  - intros Hlt [z Hz].
    rewrite (Qfloor_comp _ _ Hz), Qfloor_Z in Hlt. lra.
  - intros Hn. destruct (Qlt_le_dec 0 (x - inject_Z (Qfloor x))) as [|Hle];
      [assumption |].
    exfalso. apply Hn. exists (Qfloor x).
    pose proof (Qfloor_le x). lra.
Qed.

Lemma has_fraction_Z (z : Z) : Py.has_fraction (inject_Z z) = false.
Proof.
  destruct (Py.has_fraction (inject_Z z)) eqn:E; [| reflexivity].
  apply has_fraction_spec in E. exfalso. apply E. exists z. reflexivity.
Qed.

(** ** Level labels *)

(** C3 as stated fails: on the empty index array [has_level_label] is
    false, although the array is not the single flag [0] with a fractional
    [vmin]. *)
Lemma has_level_label_counterexample :
  ~ (has_level_label [] 0%Q = false
     <-> ([] = [0%nat] /\ Py.has_fraction 0%Q = true)).
Proof.
  intros [Hfalse _].
  destruct (Hfalse eq_refl) as [Hnil _]. discriminate Hnil.
Qed.

(** C3, amended: [has_level_label] is false exactly when the index array is
    empty, or is the single index 0 while [vmin] has a fractional part; it
    is true in every other case, and in particular false on the empty
    array for every [vmin]. *)
Theorem has_level_label_spec (label_flags : list nat) (vmin : Q) :
  (has_level_label label_flags vmin = false
   <-> label_flags = []
       \/ (label_flags = [0%nat] /\ ~ exists z : Z, (vmin == inject_Z z)%Q))
  /\ (has_level_label label_flags vmin = true
      <-> ~ (label_flags = []
             \/ (label_flags = [0%nat]
                 /\ ~ exists z : Z, (vmin == inject_Z z)%Q)))
  /\ has_level_label [] vmin = false.
Proof.
  assert (Hmain : has_level_label label_flags vmin = false
    <-> label_flags = []
        \/ (label_flags = [0%nat] /\ ~ exists z : Z, (vmin == inject_Z z)%Q)).
  { rewrite <- has_fraction_spec. unfold has_level_label.
    destruct label_flags as [|i [|j rest]]; simpl.
    - split; [now left | reflexivity].
    - destruct i; simpl.
      + destruct (Py.has_fraction vmin); simpl; split; intros Hx;
          try discriminate; auto.
        destruct Hx as [Hx | [_ Hx]]; discriminate.
      + split; [discriminate |].
        intros [Hx | [Hx _]]; discriminate.
    - split; [discriminate |].
      intros [Hx | [Hx _]]; discriminate. }
  split; [exact Hmain |]. split; [| reflexivity].
  rewrite <- Hmain. destruct (has_level_label label_flags vmin);
    split; intros; congruence.
Qed.
(** C4. For every non-negative year count the spacing is the one of the
    table: below 11 years (1,1), below 20 (1,2), below 50 (1,5), below 100
    (5,10), below 200 (5,25), below 600 (10,50), and from 600 years on
    (20*factor, 100*factor) with factor = floor(n/1000)+1; 5000 years give
    (120, 600). *)
Theorem annual_spacing_table (n : Z) :
  0 <= n ->
  (n < 11 -> _get_default_annual_spacing n = (1, 1)) /\
  (11 <= n < 20 -> _get_default_annual_spacing n = (1, 2)) /\
  (20 <= n < 50 -> _get_default_annual_spacing n = (1, 5)) /\
  (50 <= n < 100 -> _get_default_annual_spacing n = (5, 10)) /\
  (100 <= n < 200 -> _get_default_annual_spacing n = (5, 25)) /\
  (200 <= n < 600 -> _get_default_annual_spacing n = (10, 50)) /\
  (600 <= n ->
     _get_default_annual_spacing n
     = (20 * (n / 1000 + 1), 100 * (n / 1000 + 1))) /\
  _get_default_annual_spacing 5000 = (120, 600).
Proof.
  intros Hn. unfold _get_default_annual_spacing.
  repeat split; try reflexivity; intros H;
    repeat match goal with
           | |- context [?a <? ?b] =>
               destruct (Z.ltb_spec a b); try lia
           end;
    try reflexivity.
  f_equal; lia.
Qed.

Lemma annual_spacing_table_witness :
  0 <= 750 /\ _get_default_annual_spacing 750 = (20, 100).
Proof.
  split; [lia |].
  destruct (annual_spacing_table 750 ltac:(lia))
    as (_ & _ & _ & _ & _ & _ & H & _).
  rewrite H by lia. reflexivity.
Defined.


(** ** The dynamic locator *)

Lemma vi_same (vi : Q * Q) : vi_differs vi (Some vi) = false.
Proof.
  unfold vi_differs.
  rewrite !(proj2 (Qeq_bool_iff _ _)) by reflexivity. reflexivity.
Qed.

(** One call of the dynamic locator, spelled out: a fresh cache is read,
    a stale or absent one is rebuilt by one finder invocation. *)
Lemma locator_call_run (self : TimeSeries_DateLocator.t) (a b : Q)
    (w : world) :
  TimeSeries_DateLocator.isdynamic self = true ->
  TimeSeries_DateLocator.__call__ self (a, b) w =
  match (if vi_differs (a, b) (view_interval (plot w)) then None
         else date_axis_info (plot w)) with
  | Some info =>
      (Some (positions self info),
       World (PlotObj (Some (a, b)) (Some info)) (finder_calls w))
  | None =>
      match TimeSeries_DateLocator.finder self
              (if Qle_bool a b then a else b)
              (if Qle_bool a b then b else a)
              (TimeSeries_DateLocator.freq self) with
      | Some info =>
          (Some (positions self info),
           World (PlotObj (Some (a, b)) (Some info)) (S (finder_calls w)))
      | None =>
          (None, World (PlotObj (Some (a, b)) None) (S (finder_calls w)))
      end
  end.
Proof.
  intros Hdyn. destruct w as [[stored cache] calls].
  unfold TimeSeries_DateLocator.__call__,
    TimeSeries_DateLocator._get_default_locs, positions.
  rewrite Hdyn.
  unfold sync_view, axis_info, call_finder, get_plot, set_plot.
  cbv [mbind mret M_bind M_ret bind ret plot finder_calls
       view_interval date_axis_info].
  destruct (vi_differs (a, b) stored), cache as [cached|];
    destruct (Qle_bool a b); cbn [negb];
    try destruct (TimeSeries_DateLocator.finder self _ _ _);
    destruct (TimeSeries_DateLocator.isminor self); reflexivity.
Qed.

(** C6. Calling the dynamic locator twice with the same view interval:
    when the finder has an answer for that interval, the first call
    returns positions after at most one finder invocation, and the second
    call returns the same positions and leaves the world as it is (the
    cache is not rebuilt, the finder is not invoked). *)
Theorem locator_call_cached (self : TimeSeries_DateLocator.t)
    (a b : Q) (w0 : world) :
  TimeSeries_DateLocator.isdynamic self = true ->
  is_Some (TimeSeries_DateLocator.finder self
             (if Qle_bool a b then a else b)
             (if Qle_bool a b then b else a)
             (TimeSeries_DateLocator.freq self)) ->
  exists locs w1,
    TimeSeries_DateLocator.__call__ self (a, b) w0 = (Some locs, w1)
    /\ TimeSeries_DateLocator.__call__ self (a, b) w1 = (Some locs, w1)
    /\ (finder_calls w1 <= S (finder_calls w0))%nat.
Proof.
  intros Hdyn [info Hinfo].
  assert (Hwarm : forall info' calls,
    TimeSeries_DateLocator.__call__ self (a, b)
      (World (PlotObj (Some (a, b)) (Some info')) calls)
    = (Some (positions self info'),
       World (PlotObj (Some (a, b)) (Some info')) calls)).
  { intros info' calls. rewrite (locator_call_run _ _ _ _ Hdyn).
    cbn [plot view_interval date_axis_info finder_calls].
    rewrite vi_same. reflexivity. }
  rewrite (locator_call_run _ _ _ w0 Hdyn), Hinfo.
  destruct (if vi_differs (a, b) (view_interval (plot w0)) then None
            else date_axis_info (plot w0)) as [cached|].
  - eexists _, _. split; [reflexivity |]. split; [apply Hwarm |].
    cbn. lia.
  - eexists _, _. split; [reflexivity |]. split; [apply Hwarm |].
    cbn. lia.
Qed.

Lemma locator_call_cached_witness :
  exists locs w1,
    TimeSeries_DateLocator.__call__ monthly_locator (0, 29)%Q first_draw
    = (Some locs, w1)
    /\ TimeSeries_DateLocator.__call__ monthly_locator (0, 29)%Q w1
       = (Some locs, w1)
    /\ (finder_calls w1 <= S (finder_calls first_draw))%nat.
Proof.
  apply locator_call_cached; [reflexivity |].
  vm_compute. eexists. reflexivity.
Defined.

(** ** The dynamic formatter *)

Lemma int_of_integral (x : Q) :
  Py.has_fraction x = false -> Py.int x = Qfloor x.
Proof.
  unfold Py.has_fraction. rewrite negb_false_iff, Qle_bool_iff.
  intros Hle. destruct (mod1_range x) as [Hge _].
  assert (Heq : (x == inject_Z (Qfloor x))%Q) by (unfold Py.mod1 in *; lra).
  unfold Py.int. rewrite (Qfloor_comp _ _ Heq), Qfloor_Z.
  unfold Qeq in Heq. cbn in Heq. rewrite Z.mul_1_r in Heq. rewrite Heq.
  apply Z.quot_mul. discriminate.
Qed.

Section Formatter.
Context `{Period}.

Import TimeSeries_DateFormatter.

(** A position that is not in the label map stays out of it, whatever is
    queried. *)
Lemma absent_after_queries (self : t) (d : gmap Z string) (k : Z)
    (xs : list Q) :
  formatdict self = Some d -> d !! k = None ->
  exists d', formatdict (after_queries self xs) = Some d'
             /\ d' !! k = None
             /\ freq (after_queries self xs) = freq self.
Proof.
  revert self d. induction xs as [|y xs IH]; intros self d Hd Hk.
  - exists d. auto.
  - cbn [after_queries fold_left].
    fold (after_queries (__call__ self y).2 xs).
    assert (Hstep : exists d1, formatdict (__call__ self y).2 = Some d1
                              /\ d1 !! k = None
                              /\ freq (__call__ self y).2 = freq self).
    { unfold __call__, pop. rewrite Hd.
      destruct (key_of y) as [ky|]; [destruct (d !! ky) eqn:Hy |];
        cbn; eexists; (split; [reflexivity |]); split; auto.
      destruct (decide (ky = k)) as [->|Hne];
        [apply lookup_delete_eq | rewrite lookup_delete_ne; auto]. }
    destruct Hstep as (d1 & Hd1 & Hk1 & Hf1).
    destruct (IH _ _ Hd1 Hk1) as (d' & Hd' & Hk' & Hf').
    exists d'. rewrite Hf', Hf1. auto.
Qed.

(** C7. After [set_locs] has rebuilt the label map, the first query of a
    position that is in the map returns its rendered label, and every
    later query of that position, whatever else is queried in between,
    returns the empty string; the period service is taken to render the
    empty pattern as the empty string. *)
Theorem formatter_label_once
    (Hempty : forall freq ordinal, strftime freq ordinal "" = "")
    (self : t) (locs : list Q) (vi : Q * Q) (w : world)
    (self1 : t) (w1 : world) :
  set_locs self locs vi w = (Some self1, w1) ->
  exists d, formatdict self1 = Some d /\
    forall (x : Q) (k : Z) (label : string),
      key_of x = Some k -> d !! k = Some label ->
      (__call__ self1 x).1 = strftime (freq self1) k label
      /\ forall xs : list Q,
           (__call__ (after_queries (__call__ self1 x).2 xs) x).1 = "".
Proof.
  intros Hset.
  assert (Hd : exists d, formatdict self1 = Some d).
  { unfold set_locs, _set_default_format in Hset.
    cbv [mbind M_bind bind mret M_ret ret] in Hset.
    destruct (sync_view vi w) as [[[vmin vmax]|] w'];
      [| discriminate Hset].
    destruct (axis_info _ vmin vmax _ w') as [[info|] w''];
      [| discriminate Hset].
    injection Hset as <- _. eexists. reflexivity. }
  destruct Hd as [d Hd]. exists d. split; [exact Hd |].
  intros x k label Hkey Hlabel.
  assert (Hint : Py.int x = k).
  { unfold key_of in Hkey.
    destruct (Py.has_fraction x) eqn:Hfrac; [discriminate |].
    injection Hkey as <-. apply int_of_integral, Hfrac. }
  assert (Hfirst : __call__ self1 x
    = (strftime (freq self1) k label,
       Formatter (freq self1) (TimeSeries_DateFormatter.locs self1)
                 (Some (delete k d)) (isminor self1) (isdynamic self1)
                 (finder self1))).
  { unfold __call__, pop. rewrite Hd, Hkey, Hlabel, Hint. reflexivity. }
  rewrite Hfirst. split; [reflexivity |].
  intros xs. cbn [snd].
  destruct (absent_after_queries
              (Formatter (freq self1) (TimeSeries_DateFormatter.locs self1)
                 (Some (delete k d)) (isminor self1) (isdynamic self1)
                 (finder self1))
              (delete k d) k xs eq_refl (lookup_delete_eq _ _))
    as (d' & Hd' & Hk' & _).
  unfold __call__ at 1. unfold pop. rewrite Hd', Hkey, Hk'. cbn.
  apply Hempty.
Qed.

(** C10. A formatter as its constructor leaves it (no [set_locs] yet, so no
    label map) answers every position with the empty string, and stays as
    it is. *)
Theorem formatter_call_before_set_locs `{FreqGroup} (freq0 : Z)
    (minor_locator dynamic_mode : bool) (self : t) (x : Q) :
  __init__ freq0 minor_locator dynamic_mode = Some self ->
  formatdict self = None /\ __call__ self x = (EmptyString, self).
Proof.
  unfold __init__. intros Hinit.
  destruct (get_finder freq0) as [f|]; [| discriminate Hinit].
  injection Hinit as <-. split; reflexivity.
Qed.

End Formatter.

Lemma formatter_label_once_witness :
  exists d, TimeSeries_DateFormatter.formatdict monthly_drawn_formatter
            = Some d /\
    forall (x : Q) (k : Z) (label : string),
      TimeSeries_DateFormatter.key_of x = Some k -> d !! k = Some label ->
      (TimeSeries_DateFormatter.__call__ (H := schematic_period)
         monthly_drawn_formatter x).1 = label
      /\ forall xs : list Q,
           (TimeSeries_DateFormatter.__call__ (H := schematic_period)
              (TimeSeries_DateFormatter.after_queries (H := schematic_period)
                 (TimeSeries_DateFormatter.__call__ (H := schematic_period)
                    monthly_drawn_formatter x).2 xs) x).1 = "".
Proof.
  apply (formatter_label_once (H := schematic_period)
           (fun _ _ => eq_refl) monthly_formatter [] (0, 29)%Q first_draw
           monthly_drawn_formatter monthly_drawn.2).
  assert (Hsome : bool_decide (is_Some monthly_drawn.1) = true)
    by (vm_compute; reflexivity).
  apply bool_decide_eq_true in Hsome.
  change (monthly_drawn = (Some monthly_drawn_formatter, monthly_drawn.2)).
  unfold monthly_drawn_formatter.
  destruct monthly_drawn as [[drawn|] w1]; [reflexivity |].
  destruct Hsome as [drawn Hdrawn]. discriminate Hdrawn.
Defined.

Lemma formatter_call_before_set_locs_witness :
  TimeSeries_DateFormatter.formatdict monthly_formatter = None
  /\ TimeSeries_DateFormatter.__call__ (H := schematic_period)
       monthly_formatter 5%Q = (EmptyString, monthly_formatter).
Proof.
  apply (formatter_call_before_set_locs (H := schematic_period)
           (H0 := pandas_freq) 3000 false true).
  reflexivity.
Defined.

(** ** The date-time converter *)

Section Converter.
Context `{Services}.

Import DatetimeConverter.

Lemma try_parse_fails (v : value) : parse_fails v -> try_parse v = v.
Proof. unfold parse_fails, try_parse. intros ->. reflexivity. Qed.

(** C8. A string whose parse attempt fails is returned unchanged, and
    [convert] does not raise on it; in a sequence or an index [convert]
    does not raise either, keeps the container and its length, and returns
    every string element whose parse attempt fails unchanged, at its
    place. *)
Theorem convert_keeps_unparsed_strings (s : string) :
  parse_fails (VStr s) ->
  convert (VStr s) = Some (VStr s)
  /\ (forall items : list value,
        exists items',
          convert (VSeq items) = Some (VSeq items')
          /\ length items' = length items
          /\ forall i : nat,
               items !! i = Some (VStr s) -> items' !! i = Some (VStr s))
  /\ (forall items : list value,
        exists items',
          convert (VIndex items) = Some (VIndex items')
          /\ length items' = length items
          /\ forall i : nat,
               items !! i = Some (VStr s) -> items' !! i = Some (VStr s)).
Proof.
  intros Hfail. pose proof (try_parse_fails _ Hfail) as Hsame.
  split; [cbn [convert]; rewrite Hsame; reflexivity |].
  split; intros items; exists (map try_parse items);
    (split; [reflexivity |]); (split; [apply length_map |]);
    intros i Hi; change (map try_parse items) with (try_parse <$> items);
    rewrite list_lookup_fmap, Hi; cbn; rewrite Hsame; reflexivity.
Qed.

End Converter.

Lemma convert_keeps_unparsed_strings_witness :
  DatetimeConverter.convert (H := no_services) (VStr "tomorrow")
  = Some (VStr "tomorrow")
  /\ (forall items : list value,
        exists items',
          DatetimeConverter.convert (H := no_services) (VSeq items)
          = Some (VSeq items')
          /\ length items' = length items
          /\ forall i : nat,
               items !! i = Some (VStr "tomorrow")
               -> items' !! i = Some (VStr "tomorrow"))
  /\ (forall items : list value,
        exists items',
          DatetimeConverter.convert (H := no_services) (VIndex items)
          = Some (VIndex items')
          /\ length items' = length items
          /\ forall i : nat,
               items !! i = Some (VStr "tomorrow")
               -> items' !! i = Some (VStr "tomorrow")).
Proof.
  apply (convert_keeps_unparsed_strings (H := no_services) "tomorrow").
  reflexivity.
Defined.

(** ** Structured arrays: what the assignments keep *)

Lemma gentle_set_maj : gentle (TickInfo.set_maj true).
Proof. intros r. split; reflexivity. Qed.

Lemma gentle_set_min (b : bool) : gentle (TickInfo.set_min b).
Proof. intros r. split; [reflexivity | exact id]. Qed.

Lemma gentle_set_fmt (s : string) : gentle (TickInfo.set_fmt s).
Proof. intros r. split; [reflexivity | exact id]. Qed.

Create HintDb ticks.
#[local] Hint Resolve gentle_set_maj gentle_set_min gentle_set_fmt : ticks.

Lemma grows_refl (info : TickInfo) : grows info info.
Proof. induction info; constructor; auto. Qed.

Lemma grows_trans (a b c : TickInfo) : grows a b -> grows b c -> grows a c.
Proof.
  intros Hab. revert c. induction Hab as [|x y a b [Hv Hm] _ IH];
    intros c Hbc; inversion Hbc as [|? z ? c' [Hv' Hm'] Hrest]; subst.
  - constructor.
  - constructor; [split | apply IH; assumption].
    + congruence.
    + intros Hx. apply Hm', Hm, Hx.
Qed.

Lemma alter_grows (set : TickInfo.row -> TickInfo.row) (i : nat)
    (info : TickInfo) :
  gentle set -> grows info (alter set i info).
Proof.
  intros Hset. revert i. induction info as [|r info IH]; intros [|i]; cbn.
  - constructor.
  - constructor.
  - constructor; [apply Hset | apply grows_refl].
  - constructor; [split; [reflexivity | exact id] | apply IH].
Qed.

Lemma assign_grows (set : TickInfo.row -> TickInfo.row) (idx : list nat)
    (info : TickInfo) :
  gentle set -> grows info (assign set idx info).
Proof.
  intros Hset. unfold assign. revert info.
  induction idx as [|i idx IH]; intros info; cbn; [apply grows_refl |].
  eapply grows_trans; [apply alter_grows, Hset | apply IH].
Qed.

Lemma assign_all_grows (set : TickInfo.row -> TickInfo.row)
    (info : TickInfo) :
  gentle set -> grows info (assign_all set info).
Proof.
  intros Hset. unfold assign_all.
  induction info; cbn; constructor; auto.
Qed.

Lemma assign1_grows (set : TickInfo.row -> TickInfo.row) (i : nat)
    (info info' : TickInfo) :
  gentle set -> assign1 set i info = Some info' -> grows info info'.
Proof.
  intros Hset. unfold assign1. case_bool_decide; [| discriminate].
  intros [= <-]. apply alter_grows, Hset.
Qed.

Lemma grows_length (info info' : TickInfo) :
  grows info info' -> length info' = length info.
Proof. intros Hg. symmetry. eapply Forall2_length, Hg. Qed.

Lemma grows_vals (info info' : TickInfo) :
  grows info info' -> map TickInfo.val info' = map TickInfo.val info.
Proof. induction 1 as [|r r' ? ? [Hv _] _ IH]; cbn; congruence. Qed.

Lemma grows_major (info info' : TickInfo) (i : nat) (r : TickInfo.row) :
  grows info info' -> info !! i = Some r -> TickInfo.maj r = true ->
  TickInfo.maj <$> info' !! i = Some true.
Proof.
  intros Hg Hi Hm.
  destruct (Forall2_lookup_l _ _ _ _ _ Hg Hi) as (r' & -> & _ & Hm').
  cbn. rewrite (Hm' Hm). reflexivity.
Qed.

Lemma grows_first_major (info info' : TickInfo) :
  grows info info' -> first_major info = Some true ->
  first_major info' = Some true.
Proof.
  unfold first_major. rewrite !head_lookup. intros Hg Hfirst.
  destruct (info !! 0%nat) as [r|] eqn:Hr; [| discriminate].
  injection Hfirst as Hm. eapply grows_major; eauto.
Qed.

Lemma grows_last_major (info info' : TickInfo) :
  grows info info' -> last_major info = Some true ->
  last_major info' = Some true.
Proof.
  unfold last_major. rewrite !last_lookup. intros Hg Hlast.
  rewrite (grows_length _ _ Hg).
  destruct (info !! pred (length info)) as [r|] eqn:Hr; [| discriminate].
  injection Hlast as Hm. eapply grows_major; eauto.
Qed.

(** ** The daily finder keeps ordinals and major flags *)

(** A chain of assignments with gentle updates. *)
Ltac grow :=
  repeat first
    [ apply grows_refl
    | match goal with
      | |- grows _ (assign _ _ _) =>
          eapply grows_trans; [| apply assign_grows; auto with ticks]
      | |- grows _ (assign_all _ _) =>
          eapply grows_trans; [| apply assign_all_grows; auto with ticks]
      | |- grows _ (if ?c then _ else _) => destruct c
      | |- grows _ (let '(_, _) := ?p in _) => destruct p
      end ].

Lemma label_tail_grows (set : TickInfo.row -> TickInfo.row)
    (oi : option nat) (info info' : TickInfo) :
  gentle set -> oi ≫= (fun i => assign1 set i info) = Some info' ->
  grows info info'.
Proof.
  intros Hset. destruct oi as [i|]; cbn; [| discriminate].
  apply assign1_grows, Hset.
Qed.

Section DailyInvariant.
Context `{FreqGroup} `{Period}.

Lemma _second_finder_grows freq dates_ day_start label_interval info :
  grows info (_second_finder freq dates_ day_start label_interval info).
Proof. unfold _second_finder. cbv zeta. grow. Qed.

Lemma _minute_finder_grows freq dates_ day_start label_interval info :
  grows info (_minute_finder freq dates_ day_start label_interval info).
Proof. unfold _minute_finder. cbv zeta. grow. Qed.

Lemma _hour_finder_grows freq vmin_orig dates_ day_start label_interval
    force_year_start info info' :
  _hour_finder freq vmin_orig dates_ day_start label_interval
    force_year_start info = Some info' ->
  grows info info'.
Proof.
  unfold _hour_finder. cbv zeta.
  destruct (force_year_start && _); intros Hrun.
  - eapply grows_trans;
      [| eapply label_tail_grows; [| exact Hrun]; auto with ticks].
    grow.
  - injection Hrun as <-. grow.
Qed.

Lemma _day_finder_grows freq vmin_orig dates_ day_start month_start
    info info' :
  _day_finder freq vmin_orig dates_ day_start month_start info = Some info' ->
  grows info info'.
Proof.
  unfold _day_finder. cbv zeta.
  destruct (negb (has_level_label _ _)); intros Hrun.
  - eapply grows_trans;
      [| eapply label_tail_grows; [| exact Hrun]; auto with ticks].
    grow.
  - injection Hrun as <-. grow.
Qed.

Lemma daily_case1_grows freq vmin_orig dates_ span periodsperday
    info info' :
  daily_case1 freq vmin_orig dates_ span periodsperday info = Some info' ->
  grows info info'.
Proof.
  unfold daily_case1. cbv zeta.
  repeat match goal with
         | |- (if ?c then _ else _) = _ -> _ => destruct c
         end;
    lazymatch goal with
    | |- Some (_second_finder _ _ _ _ _) = _ -> _ =>
        intros [= <-]; apply _second_finder_grows
    | |- Some (_minute_finder _ _ _ _ _) = _ -> _ =>
        intros [= <-]; apply _minute_finder_grows
    | |- _hour_finder _ _ _ _ _ _ _ = _ -> _ => apply _hour_finder_grows
    | |- _day_finder _ _ _ _ _ _ = _ -> _ => apply _day_finder_grows
    end.
Qed.

Lemma daily_case2_grows freq vmin_orig dates_ info info' :
  daily_case2 freq vmin_orig dates_ info = Some info' -> grows info info'.
Proof.
  unfold daily_case2. cbv zeta.
  destruct (negb (has_level_label _ _)); intros Hrun.
  - eapply grows_trans;
      [| eapply label_tail_grows; [| exact Hrun]; auto with ticks].
    grow.
  - injection Hrun as <-. grow.
Qed.

Lemma daily_case3_grows freq vmin_orig dates_ info info' :
  daily_case3 freq vmin_orig dates_ info = Some info' -> grows info info'.
Proof.
  unfold daily_case3. cbv zeta.
  destruct (negb (has_level_label _ _)); intros Hrun.
  - eapply grows_trans;
      [| eapply label_tail_grows; [| exact Hrun]; auto with ticks].
    grow.
  - injection Hrun as <-. grow.
Qed.

Lemma daily_case4_grows freq dates_ info :
  grows info (daily_case4 freq dates_ info).
Proof. unfold daily_case4. cbv zeta. grow. Qed.

Lemma daily_case4b_grows freq dates_ info :
  grows info (daily_case4b freq dates_ info).
Proof. unfold daily_case4b. cbv zeta. grow. Qed.

Lemma daily_case5_grows freq dates_ info :
  grows info (daily_case5 freq dates_ info).
Proof. unfold daily_case5. cbv zeta. grow. Qed.

Lemma daily_case6_grows freq dates_ span periodsperyear info :
  grows info (daily_case6 freq dates_ span periodsperyear info).
Proof. unfold daily_case6. cbv zeta. grow. Qed.

End DailyInvariant.

(** ** Truncation *)

Lemma int_nonneg (x : Q) : (0 <= x)%Q -> Py.int x = Qfloor x.
Proof.
  intros Hx. unfold Py.int, Qfloor. destruct x as [n d]. cbn.
  apply Z.quot_div_nonneg; [| lia].
  unfold Qle in Hx. cbn in Hx. lia.
Qed.

Lemma int_neg (x : Q) : (x < 0)%Q -> Py.int x = - Qfloor (- x).
Proof.
  intros Hx. unfold Py.int, Qfloor. destruct x as [n d]. cbn.
  unfold Qlt in Hx. cbn in Hx.
  rewrite <- (Z.opp_involutive n) at 1. rewrite Z.quot_opp_l by lia.
  f_equal. apply Z.quot_div_nonneg; lia.
Qed.

(** [int] is monotone. *)
Lemma int_le (x y : Q) : (x <= y)%Q -> Py.int x <= Py.int y.
Proof.
  intros Hxy.
  destruct (Qlt_le_dec x 0) as [Hx|Hx], (Qlt_le_dec y 0) as [Hy|Hy].
  - rewrite (int_neg x Hx), (int_neg y Hy).
    assert (Hneg : (- y <= - x)%Q) by lra.
    apply Qfloor_resp_le in Hneg. lia.
  - rewrite (int_neg x Hx), (int_nonneg y Hy).
    assert (H0 : (0 <= - x)%Q) by lra.
    apply Qfloor_resp_le in H0. apply Qfloor_resp_le in Hy.
    change (Qfloor 0) with 0 in *. lia.
  - lra.
  - rewrite (int_nonneg x Hx), (int_nonneg y Hy).
    apply Qfloor_resp_le, Hxy.
Qed.

(** ** The rows a finder starts from *)

Lemma length_arange (lo : Z) (n : nat) : length (arange lo n) = n.
Proof. unfold arange. rewrite length_map, length_seq. reflexivity. Qed.

Lemma zeros_spec (span lo : Z) (info : TickInfo) :
  zeros span lo = Some info ->
  0 <= span
  /\ info = map (fun v => TickInfo.Row v false false EmptyString)
                (arange lo (Z.to_nat span)).
Proof.
  unfold zeros. destruct (Z.ltb_spec span 0); [discriminate |].
  intros [= <-]. auto.
Qed.

Lemma zeros_vals (span lo : Z) (info : TickInfo) :
  zeros span lo = Some info ->
  map TickInfo.val info = arange lo (Z.to_nat span).
Proof.
  intros Hz. apply zeros_spec in Hz as [_ ->].
  rewrite map_map. cbn. apply map_id.
Qed.

Lemma zeros_length (span lo : Z) (info : TickInfo) :
  zeros span lo = Some info -> length info = Z.to_nat span.
Proof.
  intros Hz. rewrite <- (length_map TickInfo.val), (zeros_vals _ _ _ Hz).
  apply length_arange.
Qed.

Lemma assign1_lookup (set : TickInfo.row -> TickInfo.row) (i : nat)
    (info info' : TickInfo) :
  assign1 set i info = Some info' ->
  exists r, info !! i = Some r /\ info' !! i = Some (set r)
            /\ length info' = length info.
Proof.
  unfold assign1. case_bool_decide as Hi; [| discriminate].
  intros [= <-]. destruct (lookup_lt_is_Some_2 info i Hi) as [r Hr].
  exists r. rewrite list_lookup_alter, decide_True, Hr, length_alter by auto.
  auto.
Qed.

Lemma assign1_first_major (info info' : TickInfo) :
  assign1 (TickInfo.set_maj true) 0 info = Some info' ->
  first_major info' = Some true.
Proof.
  intros Ha. apply assign1_lookup in Ha as (r & _ & Hr & _).
  unfold first_major. rewrite head_lookup, Hr. reflexivity.
Qed.

Lemma assign1_last_major (info info' : TickInfo) :
  assign1 (TickInfo.set_maj true) (length info - 1) info = Some info' ->
  last_major info' = Some true.
Proof.
  intros Ha. apply assign1_lookup in Ha as (r & _ & Hr & Hlen).
  unfold last_major. rewrite last_lookup, Hlen.
  replace (pred (length info)) with (length info - 1)%nat by lia.
  rewrite Hr. reflexivity.
Qed.

Section DailyFinder.
Context `{FreqGroup} `{Period}.

(** What a run of the daily finder that returns went through: the rows
    start as [zeros], the first and the last are flagged major, and the
    case for the span only makes gentle assignments. *)
Lemma daily_finder_run (vmin vmax : Q) (freq : Z) (info : TickInfo) :
  _daily_finder vmin vmax freq = Some info ->
  exists info0,
    zeros (Py.int vmax - Py.int vmin + 1) (Py.int vmin) = Some info0
    /\ grows info0 info
    /\ first_major info = Some true
    /\ last_major info = Some true.
Proof.
  unfold _daily_finder.
  destruct (daily_periods freq) as [[[ppd ppy] ppm]|]; [| discriminate].
  cbn [mbind option_bind]. cbv zeta.
  destruct (zeros _ _) as [info0|] eqn:Hzeros; [| discriminate].
  cbn [mbind option_bind].
  destruct (assign1 _ 0 info0) as [info1|] eqn:Hfirst; [| discriminate].
  cbn [mbind option_bind].
  destruct (assign1 _ _ info1) as [info2|] eqn:Hlast; [| discriminate].
  cbn [mbind option_bind].
  intros Hrun. exists info0. split; [reflexivity |].
  assert (H01 : grows info0 info1)
    by (eapply assign1_grows; [| exact Hfirst]; auto with ticks).
  assert (H12 : grows info1 info2)
    by (eapply assign1_grows; [| exact Hlast]; auto with ticks).
  assert (H2 : grows info2 info).
  { repeat match type of Hrun with
           | (if ?c then _ else _) = _ => destruct c
           end;
      first [ eapply daily_case1_grows, Hrun
            | eapply daily_case2_grows, Hrun
            | eapply daily_case3_grows, Hrun
            | injection Hrun as <-;
              first [ apply daily_case4_grows | apply daily_case4b_grows
                    | apply daily_case5_grows | apply daily_case6_grows ] ]. }
  split; [eauto using grows_trans |]. split.
  - eapply grows_first_major; [exact H2 |].
    eapply grows_first_major; [exact H12 |].
    eapply assign1_first_major, Hfirst.
  - eapply grows_last_major; [exact H2 |].
    eapply assign1_last_major, Hlast.
Qed.

End DailyFinder.

(** ** When the daily finder returns *)

Lemma nonzero_lt (mask : list bool) (i : nat) :
  i ∈ nonzero mask -> (i < length mask)%nat.
Proof.
  unfold nonzero. intros Hi.
  apply list_elem_of_fmap in Hi as ([j b] & -> & Hjb).
  apply list_elem_of_filter in Hjb as [_ Hjb].
  apply elem_of_lookup_imap in Hjb as (k & c & [= -> ->] & Hk).
  eapply lookup_lt_Some, Hk.
Qed.

Lemma first_label_elem (vmin_orig : Q) (label_flags : list nat) :
  label_flags <> [] ->
  exists i, first_label vmin_orig label_flags = Some i /\ i ∈ label_flags.
Proof.
  unfold first_label. destruct label_flags as [|l0 [|l1 rest]];
    [congruence | |]; intros _; cbn.
  - exists l0. split; [| left].
    destruct (bool_decide (l0 = 0%nat)); reflexivity.
  - destruct (_ && _); eexists; (split; [reflexivity |]);
      [right; left | left].
Qed.

Lemma label_tail_returns (set : TickInfo.row -> TickInfo.row)
    (vmin_orig : Q) (label_flags : list nat) (info : TickInfo) :
  label_flags <> [] ->
  (forall i, i ∈ label_flags -> (i < length info)%nat) ->
  is_Some (first_label vmin_orig label_flags
             ≫= fun i => assign1 set i info).
Proof.
  intros Hne Hlt.
  destruct (first_label_elem vmin_orig _ Hne) as (i & -> & Hi).
  cbn. unfold assign1. rewrite bool_decide_eq_true_2 by auto. eauto.
Qed.

Lemma has_level_label_nonempty (label_flags : list nat) (vmin : Q) :
  has_level_label label_flags vmin = true -> label_flags <> [].
Proof. intros Hl ->. discriminate Hl. Qed.

Section DailyReturns.
Context `{FreqGroup} `{Period}.

Lemma period_break_lt (freq : Z) (dates_ : list Z) (period : field)
    (i : nat) :
  i ∈ period_break freq dates_ period -> (i < length dates_)%nat.
Proof.
  intros Hi. apply nonzero_lt in Hi.
  unfold starts in Hi. rewrite length_map in Hi. exact Hi.
Qed.

(** The tail of the cases that force a label returns when the break
    array it reads is not empty: its indices are within the rows. *)
Ltac tail_returns info :=
  apply label_tail_returns; [assumption |];
  intros ? ?%period_break_lt;
  match goal with
  | |- (_ < length ?chain)%nat =>
      rewrite (grows_length info chain) by grow
  end;
  lia.

Lemma _hour_finder_returns freq vmin_orig dates_ label_interval
    force_year_start info :
  length info = length dates_ ->
  period_break freq dates_ day <> [] ->
  is_Some (_hour_finder freq vmin_orig dates_ (period_break freq dates_ day)
             label_interval force_year_start info).
Proof.
  intros Hlen Hday. unfold _hour_finder. cbv zeta.
  destruct (force_year_start && _); [| eauto].
  tail_returns info.
Qed.

Lemma _day_finder_returns freq vmin_orig dates_ info :
  length info = length dates_ ->
  period_break freq dates_ day <> [] ->
  is_Some (_day_finder freq vmin_orig dates_ (period_break freq dates_ day)
             (period_break freq dates_ month) info).
Proof.
  intros Hlen Hday. unfold _day_finder. cbv zeta.
  destruct (negb (has_level_label (period_break freq dates_ year) _));
    [| eauto].
  destruct (has_level_label (period_break freq dates_ month) vmin_orig)
    eqn:Hmonth; cbn [negb].
  - apply has_level_label_nonempty in Hmonth. tail_returns info.
  - tail_returns info.
Qed.

Lemma daily_case1_returns freq vmin_orig dates_ span periodsperday info :
  length info = length dates_ ->
  period_break freq dates_ day <> [] ->
  is_Some (daily_case1 freq vmin_orig dates_ span periodsperday info).
Proof.
  intros Hlen Hday. unfold daily_case1. cbv zeta.
  repeat match goal with
         | |- is_Some (if ?c then _ else _) => destruct c
         end;
    eauto using _hour_finder_returns, _day_finder_returns.
Qed.

Lemma daily_case2_returns freq vmin_orig dates_ info :
  length info = length dates_ ->
  period_break freq dates_ week <> [] ->
  is_Some (daily_case2 freq vmin_orig dates_ info).
Proof.
  intros Hlen Hweek. unfold daily_case2. cbv zeta.
  destruct (negb (has_level_label (period_break freq dates_ year) _));
    [| eauto].
  destruct (has_level_label (period_break freq dates_ month) vmin_orig)
    eqn:Hmonth; cbn [negb].
  - apply has_level_label_nonempty in Hmonth. tail_returns info.
  - tail_returns info.
Qed.

Lemma daily_case3_returns freq vmin_orig dates_ info :
  length info = length dates_ ->
  period_break freq dates_ month <> [] ->
  is_Some (daily_case3 freq vmin_orig dates_ info).
Proof.
  intros Hlen Hmonth. unfold daily_case3. cbv zeta.
  destruct (negb (has_level_label (period_break freq dates_ year) _));
    [| eauto].
  tail_returns info.
Qed.

(** The daily finder returns for a supported frequency and ordered limits
    as soon as the window holds a day break, a week break and a month
    break (the arrays [first_label] may be handed). *)
Lemma daily_finder_returns (vmin vmax : Q) (freq : Z) :
  (vmin <= vmax)%Q ->
  is_Some (daily_periods freq) ->
  (forall period, period ∈ [day; week; month] ->
     period_break freq
       (arange (Py.int vmin) (Z.to_nat (Py.int vmax - Py.int vmin + 1)))
       period <> []) ->
  is_Some (_daily_finder vmin vmax freq).
Proof.
  intros Hle [[[ppd ppy] ppm] Hfreq] Hbreaks. apply int_le in Hle.
  unfold _daily_finder, PeriodIndex. rewrite Hfreq.
  cbn [mbind option_bind]. cbv zeta.
  set (span := Py.int vmax - Py.int vmin + 1) in *.
  set (dates_ := arange (Py.int vmin) (Z.to_nat span)) in *.
  destruct (zeros span (Py.int vmin)) as [info0|] eqn:Hzeros;
    [| unfold zeros in Hzeros; destruct (Z.ltb_spec span 0);
       [lia | discriminate]].
  pose proof (zeros_length _ _ _ Hzeros) as Hlen0.
  cbn [mbind option_bind]. unfold assign1 at 2.
  rewrite bool_decide_eq_true_2 by lia. cbn [mbind option_bind].
  unfold assign1 at 1. rewrite length_alter.
  rewrite bool_decide_eq_true_2 by lia. cbn [mbind option_bind].
  assert (Hlen : length (alter (TickInfo.set_maj true) (length info0 - 1)%nat
                           (alter (TickInfo.set_maj true) 0%nat info0))
                 = length dates_).
  { rewrite !length_alter. unfold dates_. rewrite length_arange. exact Hlen0. }
  repeat match goal with
         | |- is_Some (if ?c then _ else _) => destruct c
         end;
    first [ apply daily_case1_returns | apply daily_case2_returns
          | apply daily_case3_returns | eauto ];
    first [ exact Hlen | apply Hbreaks; set_solver ].
Qed.

End DailyReturns.

(** ** The monthly, quarterly and annual finders return *)

Lemma zeros_returns (span lo : Z) :
  0 <= span ->
  zeros span lo
  = Some (map (fun v => TickInfo.Row v false false EmptyString)
              (arange lo (Z.to_nat span))).
Proof. intros Hs. unfold zeros. destruct (Z.ltb_spec span 0); [lia | auto]. Qed.

Lemma label_first_grows (label : string) (dates_ : list Z)
    (info0 info : TickInfo) :
  grows info0 info -> length info0 = length dates_ ->
  (0 < length dates_)%nat ->
  exists info', label_first label dates_ info = Some info'
                /\ grows info0 info'.
Proof.
  intros Hg Hlen Hpos. unfold label_first, assign1.
  pose proof (grows_length _ _ Hg) as Hlen'.
  rewrite bool_decide_eq_true_2 by (case_bool_decide; lia).
  eexists. split; [reflexivity |].
  eapply grows_trans; [exact Hg | apply alter_grows; auto with ticks].
Qed.

(** The rows a finder over the ordinals [lo .. hi] starts from. *)
Lemma finder_rows (lo hi : Z) :
  lo <= hi ->
  exists info0,
    zeros (hi - lo + 1) lo = Some info0
    /\ map TickInfo.val info0 = arange lo (Z.to_nat (hi - lo + 1))
    /\ length info0 = length (arange lo (Z.to_nat (hi - lo + 1)))
    /\ (0 < length (arange lo (Z.to_nat (hi - lo + 1))))%nat.
Proof.
  intros Hle. eexists. split; [apply zeros_returns; lia |].
  rewrite map_map, length_map, length_arange. cbn.
  rewrite map_id. repeat split; lia.
Qed.

Lemma monthly_finder_run (vmin vmax : Q) (freq : Z) :
  (vmin <= vmax)%Q ->
  exists info0 info,
    zeros (Py.int vmax - Py.int vmin + 1) (Py.int vmin) = Some info0
    /\ _monthly_finder vmin vmax freq = Some info
    /\ grows info0 info.
Proof.
  intros Hle%int_le.
  destruct (finder_rows _ _ Hle) as (info0 & Hzeros & _ & Hlen & Hpos).
  exists info0. unfold _monthly_finder. cbv zeta. rewrite Hzeros.
  cbn [mbind option_bind].
  repeat match goal with
         | |- context [if ?c then _ else _] => destruct c
         | |- context [let '(_, _) := ?p in _] => destruct p
         end;
    try (eexists; split; [reflexivity |]; split; [reflexivity | grow]).
  edestruct label_first_grows as (info' & -> & Hg);
    [| exact Hlen | exact Hpos | eauto].
  grow.
Qed.

Lemma quarterly_finder_run (vmin vmax : Q) (freq : Z) :
  (vmin <= vmax)%Q ->
  exists info0 info,
    zeros (Py.int vmax - Py.int vmin + 1) (Py.int vmin) = Some info0
    /\ _quarterly_finder vmin vmax freq = Some info
    /\ grows info0 info.
Proof.
  intros Hle%int_le.
  destruct (finder_rows _ _ Hle) as (info0 & Hzeros & _ & Hlen & Hpos).
  exists info0. unfold _quarterly_finder. cbv zeta. rewrite Hzeros.
  cbn [mbind option_bind].
  repeat match goal with
         | |- context [if ?c then _ else _] => destruct c
         | |- context [let '(_, _) := ?p in _] => destruct p
         end;
    try (eexists; split; [reflexivity |]; split; [reflexivity | grow]).
  edestruct label_first_grows as (info' & -> & Hg);
    [| exact Hlen | exact Hpos | eauto].
  grow.
Qed.

Lemma annual_finder_run (vmin vmax : Q) (freq : Z) (info : TickInfo) :
  _annual_finder vmin vmax freq = Some info ->
  exists vmax_plus_1 info0,
    Py.fadd vmax 1 = Some vmax_plus_1
    /\ zeros (Py.int vmax_plus_1 - Py.int vmin + 1) (Py.int vmin)
       = Some info0
    /\ grows info0 info.
Proof.
  unfold _annual_finder.
  destruct (Py.fadd vmax 1) as [vmax_plus_1|]; [| discriminate].
  cbn [mbind option_bind]. cbv zeta.
  destruct (zeros _ _) as [info0|] eqn:Hzeros; [| discriminate].
  cbn [mbind option_bind].
  destruct (_get_default_annual_spacing _) as [min_anndef maj_anndef].
  intros [= <-]. exists vmax_plus_1, info0. split; [reflexivity |].
  split; [exact Hzeros | grow].
Qed.

Lemma annual_finder_returns (vmin vmax vmax_plus_1 : Q) (freq : Z) :
  Py.fadd vmax 1 = Some vmax_plus_1 ->
  Py.int vmin <= Py.int vmax_plus_1 + 1 ->
  is_Some (_annual_finder vmin vmax freq).
Proof.
  intros Hsum Hspan. unfold _annual_finder. rewrite Hsum.
  cbn [mbind option_bind]. cbv zeta.
  rewrite zeros_returns by lia. cbn [mbind option_bind].
  destruct (_get_default_annual_spacing _) as [min_anndef maj_anndef].
  eauto.
Qed.

(** ** The range a finder covers *)


Section FinderRange.
Context `{FreqGroup} `{Period}.


(** C2. For ordered view limits and a frequency the daily finder supports:
    the finder returns as soon as the window holds a day, a week and a
    month break, and whatever it returns has the major flag set at the
    first and at the last position. *)
Theorem daily_finder_edges_major (vmin vmax : Q) (freq : Z) :
  (vmin <= vmax)%Q ->
  is_Some (daily_periods freq) ->
  ((forall period, period ∈ [day; week; month] ->
      period_break freq
        (arange (Py.int vmin) (Z.to_nat (Py.int vmax - Py.int vmin + 1)))
        period <> []) ->
   is_Some (_daily_finder vmin vmax freq))
  /\ (forall info, _daily_finder vmin vmax freq = Some info ->
        first_major info = Some true /\ last_major info = Some true).
Proof.
  intros Hle Hfreq. split.
  - intros Hbreaks. apply daily_finder_returns; assumption.
  - intros info Hrun.
    destruct (daily_finder_run _ _ _ _ Hrun) as (_ & _ & _ & Hfirst & Hlast).
    auto.
Qed.

End FinderRange.


Lemma daily_finder_edges_major_witness :
  is_Some (_daily_finder (H := pandas_freq) (H0 := schematic_period)
             (1 # 2) 40 6000)
  /\ forall info,
       _daily_finder (H := pandas_freq) (H0 := schematic_period)
         (1 # 2) 40 6000 = Some info ->
       first_major info = Some true /\ last_major info = Some true.
Proof.
  assert (Hle : (1 # 2 <= 40)%Q) by (unfold Qle; cbn; lia).
  assert (Hfreq : is_Some (daily_periods (H := pandas_freq) 6000))
    by (eexists; reflexivity).
  destruct (daily_finder_edges_major
              (H := pandas_freq) (H0 := schematic_period)
              (1 # 2) 40 6000 Hle Hfreq)
    as [Hreturns Hflags].
  split; [| exact Hflags].
  apply Hreturns. intros period Hperiod.
  repeat (apply elem_of_cons in Hperiod as [-> | Hperiod]);
    [vm_compute; discriminate ..|].
  apply elem_of_nil in Hperiod. destruct Hperiod.
Defined.

(** ** The clock-time round trip *)

(** C9, at a failing input: 00:00:01.000001 has the ordinal 1.000001, whose
    binary64 value lies below the real one; [(x - 1) * 1e6] is then below 1
    and truncates to 0 microseconds, so the time comes back as 00:00:01
    with the pattern for whole seconds. *)
Theorem time_round_trip_loses_microsecond :
  TimeFormatter.__call__ (_to_ordinalf (Time 0 0 1 1))
  = Some (Time 0 0 1 0, "%H:%M:%S").
Proof. vm_compute. reflexivity. Qed.

(** ** Assignments through masks, exactly *)

Lemma imap_cons_S {A B} (f : nat -> A -> B) (x : A) (l : list A) :
  imap f (x :: l) = f 0%nat x :: imap (fun i => f (S i)) l.
Proof. reflexivity. Qed.

Lemma nonzero_renumber (g : nat -> nat) (mask : list bool) :
  map fst (filter (fun p => snd p = true) (imap (fun i c => (g i, c)) mask))
  = map g (nonzero mask).
Proof.
  revert g. induction mask as [|c mask IH]; intros g; [reflexivity |].
  unfold nonzero. rewrite !imap_cons_S. cbv beta.
  rewrite !filter_cons. cbn [snd].
  pose proof (IH (fun i => g (S i))) as Hg. pose proof (IH S) as HS.
  cbv beta in Hg, HS.
  destruct c; case_decide; try congruence; cbn [map fst];
    rewrite Hg, HS, map_map; reflexivity.
Qed.

Lemma nonzero_cons (b : bool) (mask : list bool) :
  nonzero (b :: mask)
  = (if b then [0%nat] else []) ++ map S (nonzero mask).
Proof.
  unfold nonzero at 1. rewrite imap_cons_S, filter_cons. cbn [snd].
  pose proof (nonzero_renumber S mask) as HS. cbv beta in HS.
  destruct b; case_decide; try congruence; cbn [map fst app];
    rewrite HS; reflexivity.
Qed.

Lemma assign_shift (set : TickInfo.row -> TickInfo.row) (idx : list nat)
    (r : TickInfo.row) (info : TickInfo) :
  assign set (map S idx) (r :: info) = r :: assign set idx info.
Proof.
  unfold assign. revert info.
  induction idx as [|i idx IH]; intros info; [reflexivity |].
  cbn. apply IH.
Qed.

(** Assigning at the true entries of a mask updates exactly the rows the
    mask selects. *)
Lemma assign_where (set : TickInfo.row -> TickInfo.row) (p : Z -> bool)
    (g : Z -> TickInfo.row) (dates_ : list Z) :
  assign set (nonzero (map p dates_)) (map g dates_)
  = map (fun d => if p d then set (g d) else g d) dates_.
Proof.
  induction dates_ as [|d dates_ IH]; [reflexivity |].
  cbn [map]. rewrite nonzero_cons, <- IH.
  destruct (p d).
  - exact (assign_shift set _ (set (g d)) _).
  - exact (assign_shift set _ (g d) _).
Qed.

Lemma assign_all_map (set : TickInfo.row -> TickInfo.row)
    (g : Z -> TickInfo.row) (dates_ : list Z) :
  assign_all set (map g dates_) = map (fun d => set (g d)) dates_.
Proof. unfold assign_all. apply map_map. Qed.

(** ** The monthly finder on two and a half years *)

(** The binary64 thresholds of the monthly bands, as integer tests:
    [1.15 * 12] lies between 13 and 14, [2.5 * 12] is 30. *)
Lemma monthly_threshold_1 (n : Z) :
  le_float n (1.15 * Py.float_of_Z 12)%float = (n <=? 13).
Proof.
  unfold le_float.
  destruct (Py.Q_of_float _) as [q|] eqn:Hq; vm_compute in Hq;
    [| discriminate Hq].
  injection Hq as <-. unfold Qle_bool. cbn [Qnum Qden inject_Z].
  match goal with
  | |- (?a <=? ?b) = _ =>
      destruct (Z.leb_spec a b), (Z.leb_spec n 13); try reflexivity; lia
  end.
Qed.

Lemma monthly_threshold_2 (n : Z) :
  le_float n (2.5 * Py.float_of_Z 12)%float = (n <=? 30).
Proof.
  unfold le_float.
  destruct (Py.Q_of_float _) as [q|] eqn:Hq; vm_compute in Hq;
    [| discriminate Hq].
  injection Hq as <-. unfold Qle_bool. cbn [Qnum Qden inject_Z].
  match goal with
  | |- (?a <=? ?b) = _ =>
      destruct (Z.leb_spec a b), (Z.leb_spec n 30); try reflexivity; lia
  end.
Qed.

Lemma monthly_init_rows (vmin vmax : Q) :
  0 <= Py.int vmax - Py.int vmin + 1 ->
  zeros (Py.int vmax - Py.int vmin + 1) (Py.int vmin)
  = Some (map (fun v => TickInfo.Row v false false EmptyString)
              (arange (Py.int vmin)
                      (Z.to_nat (Py.int vmax - Py.int vmin + 1)))).
Proof. apply zeros_returns. Qed.

(** The reading of claim C5 fails on the months 0 to 29 (a span of 30):
    the finder does not return the rows of the band up to 4 years; April
    (ordinal 3), a quarter start, is labelled too. *)
Lemma monthly_finder_span_30_counterexample :
  _monthly_finder 0 29 3000
  <> Some (map monthly_row_half_years (arange 0 30)).
Proof.
  intros Heq.
  apply (f_equal (fun o => TickInfo.fmt <$> (o ≫= (.!! 3%nat)))) in Heq.
  vm_compute in Heq. discriminate Heq.
Qed.

(** C5, amended: a span of 30 months satisfies [span <= 2.5 * 12] and falls
    into the band up to 2.5 years: the finder returns one row per month,
    every month a minor tick, the year starts (ordinal divisible by 12)
    major with the format [%b\n%Y], and the other quarter starts (ordinal
    divisible by 3: April, July, October) with the format [%b]; the rows the
    scenario describes, where of the months other than January only July
    is labelled, are those of the spans from 31 to 48 months. *)
Theorem monthly_finder_span_30 (vmin vmax : Q) (freq : Z) :
  let span := Py.int vmax - Py.int vmin + 1 in
  (span = 30 ->
   _monthly_finder vmin vmax freq
   = Some (map monthly_row_quarters (arange (Py.int vmin) 30)))
  /\ (30 < span <= 48 ->
      _monthly_finder vmin vmax freq
      = Some (map monthly_row_half_years
                  (arange (Py.int vmin) (Z.to_nat span)))).
Proof.
  intros span. subst span. split; intros Hspan.
  - unfold _monthly_finder. cbv zeta.
    rewrite monthly_init_rows by lia. cbn [mbind option_bind].
    rewrite monthly_threshold_1, monthly_threshold_2, Hspan.
    change (30 <=? 13) with false. change (30 <=? 30) with true.
    cbv iota. change (Z.to_nat 30) with 30%nat. unfold where_mod.
    repeat first [rewrite assign_where | rewrite assign_all_map].
    f_equal. apply map_ext. intros v. unfold monthly_row_quarters.
    destruct (v mod 12 =? 0), (v mod 3 =? 0); reflexivity.
  - unfold _monthly_finder. cbv zeta.
    rewrite monthly_init_rows by lia. cbn [mbind option_bind].
    rewrite monthly_threshold_1, monthly_threshold_2.
    destruct (Z.leb_spec (Py.int vmax - Py.int vmin + 1) 13); [lia |].
    destruct (Z.leb_spec (Py.int vmax - Py.int vmin + 1) 30); [lia |].
    destruct (Z.leb_spec (Py.int vmax - Py.int vmin + 1) (4 * 12)); [| lia].
    unfold where_mod.
    repeat first [rewrite assign_where | rewrite assign_all_map].
    f_equal. apply map_ext. intros v. unfold monthly_row_half_years.
    destruct (v mod 12 =? 0), (v mod 12 =? 6); reflexivity.
Qed.

Lemma monthly_finder_span_30_witness :
  _monthly_finder (1 # 2) (59 # 2) 3000
  = Some (map monthly_row_quarters (arange (Py.int (1 # 2)) 30)).
Proof.
  apply (proj1 (monthly_finder_span_30 (1 # 2) (59 # 2) 3000)).
  reflexivity.
Defined.

(** * Further properties of the module *)

(** ** The spacing table and the annual finder *)

Lemma spacing_shape (nyears : Z) :
  let '(min_spacing, maj_spacing) := _get_default_annual_spacing nyears in
  0 < min_spacing /\ min_spacing <= maj_spacing
  /\ maj_spacing mod min_spacing = 0.
Proof.
  unfold _get_default_annual_spacing.
  repeat match goal with
         | |- context [?a <? ?b] => destruct (Z.ltb_spec a b)
         end; cbv zeta;
    try (repeat split; first [reflexivity | lia]).
  assert (Hf : 0 <= nyears / 1000) by (apply Z.div_pos; lia).
  repeat split; [lia | lia |].
  replace ((nyears / 1000 + 1) * 100)
    with (5 * ((nyears / 1000 + 1) * 20)) by lia.
  apply Z.mod_mul. lia.
Qed.

(** X1. For every year count the two spacings are positive and the minor
    spacing divides the major one: every year that is a major tick is a
    minor tick too. *)
Theorem annual_spacing_divides (nyears : Z) :
  0 < (_get_default_annual_spacing nyears).1
  /\ (_get_default_annual_spacing nyears).1
     <= (_get_default_annual_spacing nyears).2
  /\ forall year : Z,
       year mod (_get_default_annual_spacing nyears).2 = 0 ->
       year mod (_get_default_annual_spacing nyears).1 = 0.
Proof.
  pose proof (spacing_shape nyears) as Hshape.
  destruct (_get_default_annual_spacing nyears) as [mi ma].
  destruct Hshape as (Hpos & Hle & Hdiv). cbn [fst snd].
  repeat split; [assumption .. |].
  intros year Hyear.
  apply Z.mod_divide in Hdiv; [| lia]. apply Z.mod_divide in Hyear; [| lia].
  apply Z.mod_divide; [lia |]. eapply Z.divide_trans; eassumption.
Qed.

Lemma spacing_multiple (a b v : Z) :
  0 < a -> b mod a = 0 -> v mod b = 0 -> v mod a = 0.
Proof.
  intros Ha Hb Hv.
  destruct (Z.eq_dec b 0) as [-> | Hb0].
  - rewrite Z.mod_0_r in Hv. subst v. apply Z.mod_0_l. lia.
  - apply Z.mod_divide in Hb; [| lia]. apply Z.mod_divide in Hv; [| lia].
    apply Z.mod_divide; [lia |]. eapply Z.divide_trans; eassumption.
Qed.

(** The rows of the annual finder for a given binary64 sum. *)
Lemma annual_finder_rows_eq (vmin vmax vmax_plus_1 : Q) (freq : Z)
    (info : TickInfo) :
  Py.fadd vmax 1 = Some vmax_plus_1 ->
  _annual_finder vmin vmax freq = Some info ->
  let lo := Py.int vmin in
  let span := Py.int vmax_plus_1 - lo + 1 in
  let spacing := _get_default_annual_spacing span in
  info = map (fun v => TickInfo.Row v (v mod spacing.2 =? 0)
                         (v mod spacing.1 =? 0)
                         (if v mod spacing.2 =? 0 then "%Y" else ""))
             (arange lo (Z.to_nat span)).
Proof.
  intros Hsum. unfold _annual_finder. rewrite Hsum.
  cbn [mbind option_bind]. cbv zeta. unfold zeros.
  destruct (_ <? 0); [discriminate |]. cbn [mbind option_bind].
  destruct (_get_default_annual_spacing _) as [min_anndef maj_anndef].
  unfold where_mod.
  repeat first [rewrite assign_where | rewrite assign_all_map].
  intros [= <-]. cbn [fst snd]. apply map_ext. intros v.
  destruct (v mod maj_anndef =? 0), (v mod min_anndef =? 0); reflexivity.
Qed.

(** X2. Whatever the annual finder returns has one row per year, from
    [int(vmin)] to [int(vmax + 1)] (the sum taken in binary64); a row is
    major exactly when its year is a multiple of the major spacing chosen
    for the span, minor exactly when it is a multiple of the minor spacing,
    labelled [%Y] exactly when it is major and unlabelled otherwise; and
    every major row is also minor. *)
Theorem annual_finder_rows (vmin vmax : Q) (freq : Z) (info : TickInfo) :
  _annual_finder vmin vmax freq = Some info ->
  exists vmax_plus_1,
    Py.fadd vmax 1 = Some vmax_plus_1
    /\ let span := Py.int vmax_plus_1 - Py.int vmin + 1 in
       let spacing := _get_default_annual_spacing span in
       map TickInfo.val info = arange (Py.int vmin) (Z.to_nat span)
       /\ forall r, r ∈ info ->
            (TickInfo.maj r = true <-> TickInfo.val r mod spacing.2 = 0)
            /\ (TickInfo.min r = true <-> TickInfo.val r mod spacing.1 = 0)
            /\ TickInfo.fmt r = (if TickInfo.maj r then "%Y" else "")
            /\ (TickInfo.maj r = true -> TickInfo.min r = true).
Proof.
  intros Hrun.
  destruct (annual_finder_run vmin vmax freq info Hrun)
    as (vmax_plus_1 & info0 & Hsum & _ & _).
  exists vmax_plus_1. split; [exact Hsum |].
  pose proof (annual_finder_rows_eq _ _ _ _ _ Hsum Hrun) as Hrows.
  pose proof (spacing_shape
                (Py.int vmax_plus_1 - Py.int vmin + 1)) as Hdiv.
  cbv zeta in Hrows |- *.
  destruct (_get_default_annual_spacing _) as [mi ma].
  destruct Hdiv as (Hpos & _ & Hdiv). cbn [fst snd] in *. subst info.
  split; [rewrite map_map; apply map_id |].
  intros r Hr. apply list_elem_of_fmap in Hr as (v & -> & _).
  cbn [TickInfo.maj TickInfo.min TickInfo.val TickInfo.fmt].
  rewrite !Z.eqb_eq. repeat split; try tauto.
  intros Hma. eapply spacing_multiple; eassumption.
Qed.

Lemma annual_finder_rows_witness :
  exists vmax_plus_1,
    Py.fadd 2010 1 = Some vmax_plus_1
    /\ let span := Py.int vmax_plus_1 - Py.int 1990 + 1 in
       let spacing := _get_default_annual_spacing span in
       map TickInfo.val (default [] (_annual_finder 1990 2010 1000))
       = arange (Py.int 1990) (Z.to_nat span)
       /\ forall r, r ∈ default [] (_annual_finder 1990 2010 1000) ->
            (TickInfo.maj r = true <-> TickInfo.val r mod spacing.2 = 0)
            /\ (TickInfo.min r = true <-> TickInfo.val r mod spacing.1 = 0)
            /\ TickInfo.fmt r = (if TickInfo.maj r then "%Y" else "")
            /\ (TickInfo.maj r = true -> TickInfo.min r = true).
Proof.
  apply (annual_finder_rows 1990 2010 1000).
  assert (Hsome : bool_decide (is_Some (_annual_finder 1990 2010 1000))
                  = true) by (vm_compute; reflexivity).
  apply bool_decide_eq_true in Hsome. destruct Hsome as [info ->].
  reflexivity.
Defined.

(** ** The cache the locator and the formatter share *)

(** One [set_locs], spelled out: a fresh cache is read, a stale or absent
    one is rebuilt by one finder invocation. *)
Lemma set_locs_run (self : TimeSeries_DateFormatter.t) (locs : list Q)
    (a b : Q) (w : world) :
  TimeSeries_DateFormatter.set_locs self locs (a, b) w =
  match (if vi_differs (a, b) (view_interval (plot w)) then None
         else date_axis_info (plot w)) with
  | Some info =>
      (Some (with_labels self locs info),
       World (PlotObj (Some (a, b)) (Some info)) (finder_calls w))
  | None =>
      match TimeSeries_DateFormatter.finder self
              (if Qle_bool a b then a else b)
              (if Qle_bool a b then b else a)
              (TimeSeries_DateFormatter.freq self) with
      | Some info =>
          (Some (with_labels self locs info),
           World (PlotObj (Some (a, b)) (Some info)) (S (finder_calls w)))
      | None =>
          (None, World (PlotObj (Some (a, b)) None) (S (finder_calls w)))
      end
  end.
Proof.
  destruct w as [[stored cache] calls].
  unfold TimeSeries_DateFormatter.set_locs,
    TimeSeries_DateFormatter._set_default_format, with_labels, role_rows.
  unfold sync_view, axis_info, call_finder, get_plot, set_plot.
  cbv [mbind mret M_bind M_ret bind ret plot finder_calls
       view_interval date_axis_info].
  cbn [TimeSeries_DateFormatter.freq TimeSeries_DateFormatter.finder
       TimeSeries_DateFormatter.isminor TimeSeries_DateFormatter.isdynamic
       TimeSeries_DateFormatter.locs].
  destruct (vi_differs (a, b) stored), cache as [cached|];
    destruct (Qle_bool a b); cbn [negb];
    try destruct (TimeSeries_DateFormatter.finder self _ _ _);
    destruct (TimeSeries_DateFormatter.isminor self); reflexivity.
Qed.

(** After any call of the locator the plot object holds the interval of
    that call. *)
Lemma locator_call_stores_interval (self : TimeSeries_DateLocator.t)
    (vi : Q * Q) (w : world) :
  view_interval (plot (TimeSeries_DateLocator.__call__ self vi w).2)
  = Some vi.
Proof.
  destruct w as [[stored cache] calls], vi as [a b].
  unfold TimeSeries_DateLocator.__call__,
    TimeSeries_DateLocator._get_default_locs.
  unfold sync_view, axis_info, call_finder, get_plot, set_plot, raise.
  cbv [mbind mret M_bind M_ret bind ret plot finder_calls
       view_interval date_axis_info].
  destruct (vi_differs (a, b) stored), cache as [cached|];
    destruct (Qle_bool a b); cbn [negb];
    destruct (TimeSeries_DateLocator.isdynamic self);
    try destruct (TimeSeries_DateLocator.finder self _ _ _);
    try destruct (TimeSeries_DateLocator.isminor self); reflexivity.
Qed.

(** The cache test of the source fires exactly when one of the two limits
    has another value than the stored one. *)
Lemma vi_differs_spec (vi old : Q * Q) :
  vi_differs vi (Some old) = true
  <-> ~ ((vi.1 == old.1)%Q /\ (vi.2 == old.2)%Q).
Proof.
  unfold vi_differs. rewrite negb_true_iff, andb_false_iff.
  rewrite <- !not_true_iff_false, !Qeq_bool_iff.
  destruct (Qeq_dec vi.1 old.1), (Qeq_dec vi.2 old.2); tauto.
Qed.

(** X3. A moved view interval is never served from the cache: whatever the
    first call of a dynamic locator did, a second call with an interval of
    which a limit has another value than in the first invokes the finder
    exactly once more and returns the positions of the finder's answer for
    the new interval. *)
Theorem locator_rebuilds_on_moved_view (self : TimeSeries_DateLocator.t)
    (vi1 : Q * Q) (a b : Q) (w0 : world) (info : TickInfo) :
  TimeSeries_DateLocator.isdynamic self = true ->
  ~ ((a == vi1.1)%Q /\ (b == vi1.2)%Q) ->
  TimeSeries_DateLocator.finder self
    (if Qle_bool a b then a else b) (if Qle_bool a b then b else a)
    (TimeSeries_DateLocator.freq self) = Some info ->
  let w1 := (TimeSeries_DateLocator.__call__ self vi1 w0).2 in
  TimeSeries_DateLocator.__call__ self (a, b) w1
  = (Some (positions self info),
     World (PlotObj (Some (a, b)) (Some info)) (S (finder_calls w1))).
Proof.
  intros Hdyn Hmoved Hinfo w1.
  apply (vi_differs_spec (a, b) vi1) in Hmoved.
  rewrite (locator_call_run _ _ _ _ Hdyn). subst w1.
  rewrite locator_call_stores_interval, Hmoved, Hinfo. reflexivity.
Qed.

Lemma locator_rebuilds_on_moved_view_witness :
  let w1 := (TimeSeries_DateLocator.__call__ monthly_locator
               (0, 29)%Q first_draw).2 in
  TimeSeries_DateLocator.__call__ monthly_locator (0, 100)%Q w1
  = (Some (positions monthly_locator
             (default [] (_monthly_finder 0 100 3000))),
     World (PlotObj (Some (0, 100)%Q)
                    (Some (default [] (_monthly_finder 0 100 3000))))
           (S (finder_calls w1))).
Proof.
  apply (locator_rebuilds_on_moved_view monthly_locator (0, 29)%Q 0 100
           first_draw (default [] (_monthly_finder 0 100 3000))).
  - reflexivity.
  - intros [_ Hupper]. unfold Qeq in Hupper. cbn in Hupper.
    discriminate Hupper.
  - assert (Hsome : bool_decide (is_Some (_monthly_finder 0 100 3000)) = true)
      by (vm_compute; reflexivity).
    apply bool_decide_eq_true in Hsome. destruct Hsome as [info Hinfo].
    cbn [TimeSeries_DateLocator.finder TimeSeries_DateLocator.freq
         monthly_locator].
    change (if Qle_bool 0 100 then 0%Q else 100%Q) with 0%Q.
    change (if Qle_bool 0 100 then 100%Q else 0%Q) with 100%Q.
    rewrite Hinfo. reflexivity.
Defined.

(** X4. An inverted view interval is put in order before the finder sees
    it: from a world without cached tick information, a dynamic locator
    called with [(b, a)], [a < b], returns what it returns for [(a, b)],
    after as many finder invocations. *)
Theorem locator_inverted_interval (self : TimeSeries_DateLocator.t)
    (a b : Q) (w : world) :
  TimeSeries_DateLocator.isdynamic self = true ->
  (a < b)%Q ->
  date_axis_info (plot w) = None ->
  (TimeSeries_DateLocator.__call__ self (b, a) w).1
  = (TimeSeries_DateLocator.__call__ self (a, b) w).1
  /\ finder_calls (TimeSeries_DateLocator.__call__ self (b, a) w).2
     = finder_calls (TimeSeries_DateLocator.__call__ self (a, b) w).2.
Proof.
  intros Hdyn Hlt Hstale.
  rewrite !(locator_call_run _ _ _ _ Hdyn), Hstale.
  assert (Hab : Qle_bool a b = true) by (apply Qle_bool_iff; lra).
  assert (Hba : Qle_bool b a = false) by (apply Qle_bool_false; lra).
  rewrite Hab, Hba.
  destruct (vi_differs (b, a) _), (vi_differs (a, b) _);
    destruct (TimeSeries_DateLocator.finder self a b _); split; reflexivity.
Qed.

Lemma locator_inverted_interval_witness :
  (TimeSeries_DateLocator.__call__ monthly_locator (29, 0)%Q first_draw).1
  = (TimeSeries_DateLocator.__call__ monthly_locator (0, 29)%Q first_draw).1
  /\ finder_calls
       (TimeSeries_DateLocator.__call__ monthly_locator (29, 0)%Q
          first_draw).2
     = finder_calls
         (TimeSeries_DateLocator.__call__ monthly_locator (0, 29)%Q
            first_draw).2.
Proof.
  apply locator_inverted_interval; [reflexivity | | reflexivity].
  unfold Qlt. cbn. lia.
Defined.

(** X5. The formatter reads the tick information the locator cached: after
    a call of a dynamic locator that returned, [set_locs] of any formatter
    on the same plot object with the same view interval invokes no finder
    (not even its own), leaves the world as it is and builds its label map
    from the very rows the locator's positions came from. *)
Theorem formatter_reuses_locator_cache (self : TimeSeries_DateLocator.t)
    (a b : Q) (w0 w1 : world) (positions_returned : list Z) :
  TimeSeries_DateLocator.isdynamic self = true ->
  TimeSeries_DateLocator.__call__ self (a, b) w0
  = (Some positions_returned, w1) ->
  exists info,
    date_axis_info (plot w1) = Some info
    /\ positions_returned = positions self info
    /\ forall (formatter : TimeSeries_DateFormatter.t) (locs : list Q),
         TimeSeries_DateFormatter.set_locs formatter locs (a, b) w1
         = (Some (with_labels formatter locs info), w1).
Proof.
  intros Hdyn. rewrite (locator_call_run _ _ _ _ Hdyn).
  pose proof (vi_same (a, b)) as Hsame.
  destruct (if vi_differs (a, b) (view_interval (plot w0)) then None
            else date_axis_info (plot w0)) as [info|];
    [| destruct (TimeSeries_DateLocator.finder self _ _ _) as [info|];
       [| discriminate]];
    intros [= <- <-]; exists info;
    (split; [reflexivity |]); (split; [reflexivity |]);
    intros formatter locs; rewrite set_locs_run;
    cbn [plot view_interval date_axis_info finder_calls];
    rewrite Hsame; reflexivity.
Qed.

Lemma formatter_reuses_locator_cache_witness :
  exists info,
    date_axis_info
      (plot (TimeSeries_DateLocator.__call__ monthly_locator (0, 29)%Q
               first_draw).2) = Some info
    /\ default [] (TimeSeries_DateLocator.__call__ monthly_locator
                     (0, 29)%Q first_draw).1
       = positions monthly_locator info
    /\ forall (formatter : TimeSeries_DateFormatter.t) (locs : list Q),
         TimeSeries_DateFormatter.set_locs formatter locs (0, 29)%Q
           (TimeSeries_DateLocator.__call__ monthly_locator (0, 29)%Q
              first_draw).2
         = (Some (with_labels formatter locs info),
            (TimeSeries_DateLocator.__call__ monthly_locator (0, 29)%Q
               first_draw).2).
Proof.
  apply (formatter_reuses_locator_cache monthly_locator 0 29 first_draw);
    [reflexivity |].
  assert (Hsome : bool_decide
            (is_Some (TimeSeries_DateLocator.__call__ monthly_locator
                        (0, 29)%Q first_draw).1) = true)
    by (vm_compute; reflexivity).
  apply bool_decide_eq_true in Hsome.
  destruct (TimeSeries_DateLocator.__call__ monthly_locator (0, 29)%Q
              first_draw) as [[locs|] w1]; [reflexivity |].
  destruct Hsome as [locs Hlocs]. discriminate Hlocs.
Defined.

(** ** The label map *)

Lemma dict_fold_untouched (rows : TickInfo) (d : gmap Z string) (k : Z) :
  k ∉ map TickInfo.val rows ->
  fold_left (fun d r => <[TickInfo.val r := TickInfo.fmt r]> d) rows d !! k
  = d !! k.
Proof.
  revert d. induction rows as [|r rows IH]; intros d Hk; [reflexivity |].
  cbn [fold_left map] in *. apply not_elem_of_cons in Hk as [Hne Hk].
  rewrite IH by exact Hk. apply lookup_insert_ne. congruence.
Qed.

Lemma dict_fold_source (rows : TickInfo) (d : gmap Z string) (k : Z)
    (label : string) :
  fold_left (fun d r => <[TickInfo.val r := TickInfo.fmt r]> d) rows d !! k
  = Some label ->
  (exists r, r ∈ rows /\ TickInfo.val r = k /\ TickInfo.fmt r = label)
  \/ d !! k = Some label.
Proof.
  revert d. induction rows as [|r rows IH]; intros d Hk; [now right |].
  cbn [fold_left] in Hk. destruct (IH _ Hk) as [(r' & Hr' & Hv & Hf) | Hd].
  - left. exists r'. split; [now right | auto].
  - destruct (decide (TickInfo.val r = k)) as [Heq | Hne].
    + subst k. rewrite lookup_insert_eq in Hd. injection Hd as <-.
      left. exists r. split; [now left | auto].
    + rewrite lookup_insert_ne in Hd by exact Hne. now right.
Qed.

Lemma dict_of_row (rows : TickInfo) (r : TickInfo.row) :
  NoDup (map TickInfo.val rows) -> r ∈ rows ->
  TimeSeries_DateFormatter.dict_of rows !! TickInfo.val r
  = Some (TickInfo.fmt r).
Proof.
  unfold TimeSeries_DateFormatter.dict_of. generalize (∅ : gmap Z string).
  induction rows as [|r0 rows IH]; intros d Hnd Hr;
    [apply elem_of_nil in Hr; destruct Hr |].
  cbn [map] in Hnd. apply NoDup_cons in Hnd as [Hfresh Hnd].
  cbn [fold_left]. apply elem_of_cons in Hr as [-> | Hr].
  - rewrite dict_fold_untouched by exact Hfresh. apply lookup_insert_eq.
  - apply IH; assumption.
Qed.

Lemma role_rows_NoDup (isminor : bool) (info : TickInfo) :
  NoDup (map TickInfo.val info) ->
  NoDup (map TickInfo.val (role_rows isminor info)).
Proof.
  intros Hnd. eapply sublist_NoDup; [exact Hnd |].
  apply fmap_sublist. unfold role_rows.
  destruct isminor; apply sublist_filter.
Qed.

Lemma role_rows_elem (isminor : bool) (info : TickInfo) (r : TickInfo.row) :
  r ∈ role_rows isminor info
  <-> r ∈ info
      /\ (if isminor then TickInfo.min r && negb (TickInfo.maj r)
          else TickInfo.maj r) = true.
Proof.
  unfold role_rows. destruct isminor; rewrite list_elem_of_filter; tauto.
Qed.

(** X6. When no ordinal occurs twice in the tick information, the label
    map [set_locs] builds holds a position exactly when the row of that
    ordinal has the formatter's role (major; or minor and not major), and
    holds the format string of that row. *)
Theorem label_map_holds_role_rows (isminor : bool) (info : TickInfo)
    (k : Z) (label : string) :
  NoDup (map TickInfo.val info) ->
  TimeSeries_DateFormatter.dict_of (role_rows isminor info) !! k = Some label
  <-> exists r, r ∈ info /\ TickInfo.val r = k /\ TickInfo.fmt r = label
                /\ (if isminor then TickInfo.min r && negb (TickInfo.maj r)
                    else TickInfo.maj r) = true.
Proof.
  intros Hnd. split.
  - intros Hk. apply dict_fold_source in Hk as [(r & Hr & Hv & Hf) | Hk];
      [| rewrite lookup_empty in Hk; discriminate Hk].
    apply role_rows_elem in Hr as [Hr Hrole]. eauto.
  - intros (r & Hr & <- & <- & Hrole).
    apply dict_of_row; [apply role_rows_NoDup, Hnd |].
    apply role_rows_elem. auto.
Qed.

Lemma label_map_holds_role_rows_witness :
  TimeSeries_DateFormatter.dict_of
    (role_rows false (default [] (_monthly_finder 0 29 3000))) !! 12
  = Some ("%b" +:+ nl +:+ "%Y")
  <-> exists r, r ∈ default [] (_monthly_finder 0 29 3000)
                /\ TickInfo.val r = 12
                /\ TickInfo.fmt r = "%b" +:+ nl +:+ "%Y"
                /\ TickInfo.maj r = true.
Proof.
  apply (label_map_holds_role_rows false
           (default [] (_monthly_finder 0 29 3000)) 12).
  assert (Hnd : bool_decide
            (NoDup (map TickInfo.val
                      (default [] (_monthly_finder 0 29 3000)))) = true)
    by (vm_compute; reflexivity).
  apply bool_decide_eq_true in Hnd. exact Hnd.
Defined.

(** X7. When no ordinal occurs twice in the tick information, the label
    maps of the major and of the minor formatter share no position: a
    position the major formatter labels is never labelled by the minor
    one. *)
Theorem label_maps_disjoint (info : TickInfo) (k : Z) :
  NoDup (map TickInfo.val info) ->
  is_Some (TimeSeries_DateFormatter.dict_of (role_rows false info) !! k) ->
  TimeSeries_DateFormatter.dict_of (role_rows true info) !! k = None.
Proof.
  intros Hnd [label Hmajor].
  apply dict_fold_source in Hmajor as [(r & Hr & Hv & _) | Hk];
    [| rewrite lookup_empty in Hk; discriminate Hk].
  apply role_rows_elem in Hr as [Hr Hmaj].
  destruct (_ !! k) as [label'|] eqn:Hminor; [| reflexivity].
  apply dict_fold_source in Hminor as [(r' & Hr' & Hv' & _) | Hk];
    [| rewrite lookup_empty in Hk; discriminate Hk].
  apply role_rows_elem in Hr' as [Hr' Hmin].
  assert (r' = r) as ->.
  { apply list_elem_of_lookup in Hr as [i Hi], Hr' as [j Hj].
    assert (i = j) as ->.
    { apply (NoDup_lookup _ i j k Hnd);
        change (map TickInfo.val info) with (TickInfo.val <$> info);
        rewrite list_lookup_fmap; [rewrite Hi | rewrite Hj]; cbn;
        congruence. }
    congruence. }
  rewrite Hmaj, andb_false_r in Hmin. discriminate Hmin.
Qed.

Lemma label_maps_disjoint_witness :
  TimeSeries_DateFormatter.dict_of
    (role_rows true (default [] (_monthly_finder 0 29 3000))) !! 12 = None.
Proof.
  apply (label_maps_disjoint (default [] (_monthly_finder 0 29 3000)) 12).
  - assert (Hnd : bool_decide
              (NoDup (map TickInfo.val
                        (default [] (_monthly_finder 0 29 3000)))) = true)
      by (vm_compute; reflexivity).
    apply bool_decide_eq_true in Hnd. exact Hnd.
  - assert (Hk : bool_decide
              (is_Some (TimeSeries_DateFormatter.dict_of
                          (role_rows false
                             (default [] (_monthly_finder 0 29 3000)))
                        !! 12)) = true)
      by (vm_compute; reflexivity).
    apply bool_decide_eq_true in Hk. exact Hk.
Defined.

Section FormatterQueries.
Context `{Period}.

Import TimeSeries_DateFormatter.

Lemma call_fields (self : t) (x : Q) :
  let self' := (__call__ self x).2 in
  freq self' = freq self /\ locs self' = locs self
  /\ isminor self' = isminor self /\ isdynamic self' = isdynamic self
  /\ finder self' = finder self.
Proof.
  unfold __call__. destruct (formatdict self) as [d|]; [| cbn; auto].
  destruct (pop x d). cbn. auto.
Qed.

Lemma after_queries_fields (self : t) (xs : list Q) :
  let self' := after_queries self xs in
  freq self' = freq self /\ locs self' = locs self
  /\ isminor self' = isminor self /\ isdynamic self' = isdynamic self
  /\ finder self' = finder self.
Proof.
  revert self. induction xs as [|x xs IH]; intros self; [cbn; auto |].
  cbn [after_queries fold_left]. fold (after_queries (__call__ self x).2 xs).
  destruct (IH (__call__ self x).2) as (-> & -> & -> & -> & ->).
  apply call_fields.
Qed.

(** X8. Labels are consumed once per rebuild: whatever positions were
    queried since, a further [set_locs] with the same locations and an
    unchanged view interval gives back the formatter with its full label
    map, without a finder invocation and without a change to the world. *)
Theorem set_locs_restores_labels (self : t) (locations : list Q) (a b : Q)
    (w : world) (self1 : t) (w1 : world) (xs : list Q) :
  set_locs self locations (a, b) w = (Some self1, w1) ->
  set_locs (after_queries self1 xs) locations (a, b) w1 = (Some self1, w1).
Proof.
  rewrite !set_locs_run. intros Hset.
  assert (Hshape : exists info calls,
    self1 = with_labels self locations info
    /\ w1 = World (PlotObj (Some (a, b)) (Some info)) calls).
  { destruct (if vi_differs (a, b) (view_interval (plot w)) then None
              else date_axis_info (plot w)) as [info|];
      [| destruct (finder self _ _ _) as [info|]; [| discriminate Hset]];
      injection Hset as <- <-; eauto. }
  destruct Hshape as (info & calls & -> & ->).
  cbn [plot view_interval date_axis_info finder_calls].
  rewrite vi_same. f_equal. f_equal.
  destruct (after_queries_fields (with_labels self locations info) xs)
    as (Hfreq & _ & Hminor & Hdynamic & Hfinder).
  unfold with_labels at 1. rewrite Hfreq, Hminor, Hdynamic, Hfinder.
  reflexivity.
Qed.

(** X9. A query only takes its own label: it adds no entry to the label
    map, every other position keeps its entry, and a position with a
    fractional part takes nothing at all. *)
Theorem formatter_call_frame (self : t) (d : gmap Z string) (x : Q) :
  formatdict self = Some d ->
  exists d',
    formatdict (__call__ self x).2 = Some d'
    /\ (forall k label, d' !! k = Some label -> d !! k = Some label)
    /\ (forall k, key_of x <> Some k -> d' !! k = d !! k)
    /\ (Py.has_fraction x = true -> d' = d).
Proof.
  intros Hd. unfold __call__, pop. rewrite Hd.
  unfold key_of. destruct (Py.has_fraction x) eqn:Hfrac.
  - exists d. cbn. auto.
  - destruct (d !! Qfloor x) as [label|] eqn:Hx.
    + exists (delete (Qfloor x) d). cbn. split; [reflexivity |].
      split; [| split; [| discriminate]].
      * intros k label' Hk. apply lookup_delete_Some in Hk as [_ Hk].
        exact Hk.
      * intros k Hne. apply lookup_delete_ne. congruence.
    + exists d. cbn. split; [reflexivity |]. auto.
Qed.

End FormatterQueries.

Lemma set_locs_restores_labels_witness :
  TimeSeries_DateFormatter.set_locs
    (TimeSeries_DateFormatter.after_queries (H := schematic_period)
       monthly_drawn_formatter [12; 24; 12]%Q)
    [] (0, 29)%Q monthly_drawn.2
  = (Some monthly_drawn_formatter, monthly_drawn.2).
Proof.
  apply (set_locs_restores_labels (H := schematic_period)
           monthly_formatter [] 0 29 first_draw).
  assert (Hsome : bool_decide (is_Some monthly_drawn.1) = true)
    by (vm_compute; reflexivity).
  apply bool_decide_eq_true in Hsome.
  change (monthly_drawn = (Some monthly_drawn_formatter, monthly_drawn.2)).
  unfold monthly_drawn_formatter.
  destruct monthly_drawn as [[drawn|] w1]; [reflexivity |].
  destruct Hsome as [drawn Hdrawn]. discriminate Hdrawn.
Defined.

Lemma formatter_call_frame_witness :
  let info := default [] (_monthly_finder 0 29 3000) in
  let labels := TimeSeries_DateFormatter.dict_of (role_rows false info) in
  let self := with_labels monthly_formatter [] info in
  (labels !! 12 = Some ("%b" +:+ nl +:+ "%Y")
   /\ labels !! 24 = Some ("%b" +:+ nl +:+ "%Y"))
  /\ (exists d',
        TimeSeries_DateFormatter.formatdict
          (TimeSeries_DateFormatter.__call__ (H := schematic_period)
             self 12).2 = Some d'
        /\ (forall k label, d' !! k = Some label -> labels !! k = Some label)
        /\ (forall k, TimeSeries_DateFormatter.key_of 12 <> Some k ->
              d' !! k = labels !! k)
        /\ (Py.has_fraction 12 = true -> d' = labels))
  /\ (exists d',
        TimeSeries_DateFormatter.formatdict
          (TimeSeries_DateFormatter.__call__ (H := schematic_period)
             self (25 # 2)).2 = Some d'
        /\ (forall k label, d' !! k = Some label -> labels !! k = Some label)
        /\ (forall k, TimeSeries_DateFormatter.key_of (25 # 2) <> Some k ->
              d' !! k = labels !! k)
        /\ (Py.has_fraction (25 # 2) = true -> d' = labels)).
Proof.
  intros info labels self. split; [| split].
  - split; vm_compute; reflexivity.
  - apply (formatter_call_frame (H := schematic_period) self labels 12).
    reflexivity.
  - apply (formatter_call_frame (H := schematic_period) self labels
             (25 # 2)).
    reflexivity.
Defined.

(** ** The clock-time formatter *)

Lemma make_time_Some (h m s us : Z) (tm : time) :
  make_time h m s us = Some tm
  <-> tm = Time h m s us
      /\ 0 <= h < 24 /\ 0 <= m < 60 /\ 0 <= s < 60 /\ 0 <= us < 1000000.
Proof.
  unfold make_time.
  destruct ((0 <=? h) && (h <? 24) && (0 <=? m) && (m <? 60)
            && (0 <=? s) && (s <? 60) && (0 <=? us) && (us <? 1000000))
    eqn:Hrange.
  - repeat rewrite andb_true_iff in Hrange.
    rewrite !Z.leb_le, !Z.ltb_lt in Hrange.
    split; [intros [= <-]; split; [reflexivity | lia] | intros [-> _]; auto].
  - split; [discriminate |]. intros (_ & Hh & Hm & Hs & Hus).
    assert (Htrue : (0 <=? h) && (h <? 24) && (0 <=? m) && (m <? 60)
                    && (0 <=? s) && (s <? 60) && (0 <=? us)
                    && (us <? 1000000) = true).
    { repeat rewrite andb_true_iff. rewrite !Z.leb_le, !Z.ltb_lt. lia. }
    congruence.
Qed.

(** X10. [TimeFormatter.__call__] on a position [x] with whole seconds
    [s = int(x)] and microseconds [us = int((x - s) * 1e6)]: it returns
    exactly when [s] is a second of the day ([0 <= s < 86400]) and
    [0 <= us < 1000000], and raises (the ValueError of [datetime.time]) on
    every other position, negative ones included; when it returns, the
    rendered time has [hour * 3600 + minute * 60 + second = s] and
    microsecond [us], and the fraction [.%f] is in the pattern exactly when
    [us] is not zero. *)
Theorem time_formatter_range (x : float) (s us : Z) :
  int_of_float x = Some s ->
  int_of_float ((x - Py.float_of_Z s) * 1e6)%float = Some us ->
  (is_Some (TimeFormatter.__call__ x)
   <-> 0 <= s < 86400 /\ 0 <= us < 1000000)
  /\ forall tm fmt,
       TimeFormatter.__call__ x = Some (tm, fmt) ->
       t_hour tm * 3600 + t_minute tm * 60 + t_second tm = s
       /\ t_microsecond tm = us
       /\ 0 <= t_hour tm < 24 /\ 0 <= t_minute tm < 60
       /\ 0 <= t_second tm < 60
       /\ fmt = (if us =? 0 then "%H:%M:%S" else "%H:%M:%S.%f").
Proof.
  intros Hs Hus.
  assert (Hcall : TimeFormatter.__call__ x
    = (tm ← make_time (s / 60 / 60) (s / 60 mod 60) (s mod 60) us;
       Some (tm, if negb (us =? 0) then "%H:%M:%S" +:+ ".%f"
                 else "%H:%M:%S"))).
  { unfold TimeFormatter.__call__. rewrite Hs.
    cbn [mbind option_bind]. rewrite Hus. reflexivity. }
  rewrite Hcall. clear Hcall Hs Hus. split.
  - split.
    + intros [[tm fmt] Hrun].
      destruct (make_time _ _ _ _) as [tm'|] eqn:Htime; [| discriminate].
      apply make_time_Some in Htime as (_ & Hh & Hm & Hsec & Hus).
      split; [| exact Hus]. Z.div_mod_to_equations. lia.
    + intros [Hs Hus].
      destruct (make_time _ _ _ _) as [tm'|] eqn:Htime; [cbn; eauto |].
      exfalso.
      assert (Hsome : make_time (s / 60 / 60) (s / 60 mod 60) (s mod 60) us
                      = Some (Time (s / 60 / 60) (s / 60 mod 60)
                                   (s mod 60) us)).
      { apply make_time_Some. split; [reflexivity |].
        Z.div_mod_to_equations. lia. }
      congruence.
  - intros tm fmt Hrun.
    destruct (make_time _ _ _ _) as [tm'|] eqn:Htime; [| discriminate].
    apply make_time_Some in Htime as (-> & Hh & Hm & Hsec & Hus).
    cbn in Hrun. injection Hrun as <- <-.
    cbn [t_hour t_minute t_second t_microsecond].
    repeat split; try (Z.div_mod_to_equations; lia).
    destruct (us =? 0); reflexivity.
Qed.

Lemma time_formatter_range_witness :
  (is_Some (TimeFormatter.__call__ (_to_ordinalf (Time 1 2 3 500000)))
   <-> 0 <= 3723 < 86400 /\ 0 <= 500000 < 1000000)
  /\ forall tm fmt,
       TimeFormatter.__call__ (_to_ordinalf (Time 1 2 3 500000))
       = Some (tm, fmt) ->
       t_hour tm * 3600 + t_minute tm * 60 + t_second tm = 3723
       /\ t_microsecond tm = 500000
       /\ 0 <= t_hour tm < 24 /\ 0 <= t_minute tm < 60
       /\ 0 <= t_second tm < 60
       /\ fmt = (if 500000 =? 0 then "%H:%M:%S" else "%H:%M:%S.%f").
Proof.
  apply (time_formatter_range (_to_ordinalf (Time 1 2 3 500000))
           3723 500000).
  - vm_compute. reflexivity.
  - vm_compute. reflexivity.
Defined.

(** ** The clock-time converter *)

Lemma mapM_fixed {A} (f : A -> option A) (l k : list A) :
  (forall x y, f x = Some y -> f y = Some y) ->
  mapM f l = Some k -> mapM f k = Some k.
Proof.
  intros Hfix Hl. apply mapM_Some_1 in Hl. apply mapM_Some_2.
  induction Hl as [|x y l k Hxy _ IH]; constructor; eauto.
Qed.

Lemma mapM_elementwise {A B} (f : A -> option B) (l : list A) (k : list B) :
  mapM f l = Some k ->
  length k = length l
  /\ forall i x, l !! i = Some x -> exists y, k !! i = Some y /\ f x = Some y.
Proof.
  intros Hl. apply mapM_Some_1 in Hl. split.
  - symmetry. eapply Forall2_length, Hl.
  - intros i x Hi.
    destruct (Forall2_lookup_l _ _ _ _ _ Hl Hi) as (y & Hy & Hxy). eauto.
Qed.

Section TimeConversion.
Context `{Services}.

Import TimeConverter.

Lemma time2num_None (d : value) :
  time2num d = None
  <-> exists s, d = VStr s
                /\ forall dt, to_datetime d <> Some (VDatetime dt).
Proof.
  split.
  - destruct d; cbn; try discriminate. intros Hnone. eexists.
    split; [reflexivity |]. intros dt Hdt. rewrite Hdt in Hnone.
    discriminate Hnone.
  - intros (s & -> & Hparse). cbn.
    destruct (to_datetime (VStr s)) as [[]|]; cbn; try reflexivity.
    exfalso. eapply Hparse. reflexivity.
Qed.

Lemma time2num_fixed (x y : value) :
  time2num x = Some y -> time2num y = Some y.
Proof.
  destruct x; cbn; try (intros [= <-]; reflexivity).
  destruct (to_datetime _) as [[]|]; cbn; try discriminate.
  intros [= <-]. reflexivity.
Qed.

(** X11. [TimeConverter.convert] on a list, tuple or array raises exactly
    when one of its elements is a string that the parser does not turn
    into a [datetime]; otherwise it returns a list of the same length
    whose elements are the [time2num] of the elements, place by place. *)
Theorem time_convert_sequence (items : list value) :
  (convert (VSeq items) = None
   <-> exists s, VStr s ∈ items
                 /\ forall dt, to_datetime (VStr s) <> Some (VDatetime dt))
  /\ forall converted,
       convert (VSeq items) = Some converted ->
       exists items',
         converted = VSeq items'
         /\ length items' = length items
         /\ forall i x, items !! i = Some x ->
              exists y, items' !! i = Some y /\ time2num x = Some y.
Proof.
  cbn [convert]. split.
  - rewrite fmap_None, mapM_None, Exists_exists. split.
    + intros (x & Hx & Hnone).
      apply time2num_None in Hnone as (s & -> & Hparse). eauto.
    + intros (s & Hs & Hparse). exists (VStr s). split; [exact Hs |].
      apply time2num_None. eauto.
  - intros converted Hrun.
    apply fmap_Some in Hrun as (items' & Hitems & ->).
    exists items'. split; [reflexivity |].
    apply mapM_elementwise, Hitems.
Qed.

(** X12. Converting twice is converting once: what
    [TimeConverter.convert] returns, it returns unchanged when handed it
    again. *)
Theorem time_convert_idempotent (values converted : value) :
  convert values = Some converted -> convert converted = Some converted.
Proof.
  destruct values as [dt|ordinal|tm|n|x|s|items|items|repr];
    cbn [convert time2num].
  - intros [= <-]. reflexivity.
  - intros [= <-]. reflexivity.
  - intros [= <-]. reflexivity.
  - intros [= <-]. reflexivity.
  - intros [= <-]. reflexivity.
  - destruct (to_datetime (VStr s)) as [[]|]; cbn; try discriminate.
    intros [= <-]. reflexivity.
  - intros Hrun. apply fmap_Some in Hrun as (items' & Hitems & ->).
    cbn [convert].
    rewrite (mapM_fixed time2num items items' time2num_fixed Hitems).
    reflexivity.
  - intros Hrun. apply fmap_Some in Hrun as (items' & Hitems & ->).
    cbn [convert].
    rewrite (mapM_fixed time2num items items' time2num_fixed Hitems).
    reflexivity.
  - intros [= <-]. reflexivity.
Qed.

End TimeConversion.

Lemma time_convert_idempotent_witness :
  TimeConverter.convert (H := no_services)
    (VSeq [VFloat (_to_ordinalf (Time 1 2 3 0)); VInt 7])
  = Some (VSeq [VFloat (_to_ordinalf (Time 1 2 3 0)); VInt 7]).
Proof.
  apply (time_convert_idempotent (H := no_services)
           (VSeq [VTime (Time 1 2 3 0); VInt 7])).
  reflexivity.
Defined.

(** ** The period converter *)

Section PeriodConversion.
Context `{PeriodService}.

Lemma get_datevalue_fixed (freq : Z) (x y : datevalue) :
  get_datevalue x freq = Some y -> get_datevalue y freq = Some y.
Proof.
  destruct x as [ordinal from|s|dt|ordinal|tm|n|x| |items|items|items|repr];
    cbn [get_datevalue];
    try (intros Hrun; apply fmap_Some in Hrun as (n' & _ & ->);
         reflexivity);
    try (intros [= <-]; reflexivity);
    try discriminate.
  destruct items as [|item [|item' items]]; try discriminate.
  intros [= <-]. reflexivity.
Qed.


(** X14. On a list, tuple or array [PeriodConverter.convert] raises
    exactly when [get_datevalue] raises on one of the elements, and
    otherwise converts place by place; so a value of an unrecognised kind,
    which is returned as it is when converted on its own, makes every list
    that holds it fail. *)
Theorem period_convert_sequence (items : list datevalue) (freq : Z) :
  (period_convert (PList items) (Some freq) = None
   <-> exists x, x ∈ items /\ get_datevalue x freq = None)
  /\ (forall converted,
        period_convert (PList items) (Some freq) = Some converted ->
        exists items',
          converted = PList items'
          /\ length items' = length items
          /\ forall i x, items !! i = Some x ->
               exists y, items' !! i = Some y
                         /\ get_datevalue x freq = Some y)
  /\ (forall repr,
        period_convert (POther repr) (Some freq) = Some (POther repr)
        /\ (POther repr ∈ items ->
            period_convert (PList items) (Some freq) = None)).
Proof.
  assert (Hnone : period_convert (PList items) (Some freq) = None
                  <-> exists x, x ∈ items /\ get_datevalue x freq = None).
  { cbn. rewrite fmap_None, mapM_None, Exists_exists. reflexivity. }
  split; [exact Hnone |]. split.
  - cbn. intros converted Hrun.
    apply fmap_Some in Hrun as (items' & Hitems & ->).
    exists items'. split; [reflexivity |].
    apply (mapM_elementwise (fun x => get_datevalue x freq)), Hitems.
  - intros repr. split; [reflexivity |].
    intros Hin. apply Hnone. exists (POther repr). auto.
Qed.

End PeriodConversion.


(** ** What the date-time converter raises on *)

Section DatetimeTotal.
Context `{Services}.

Import DatetimeConverter.


End DatetimeTotal.


(** ** Autoscaling *)

(** The limits [autoscale] hands on for given positions. *)
Lemma autoscale_run (self : TimeSeries_DateLocator.t) (vmin vmax : Q)
    (w : world) :
  autoscale self (vmin, vmax) w =
  match date_axis_info (plot w) with
  | Some info =>
      (match head (positions self info), last (positions self info) with
       | Some lo, Some hi =>
           Some (if lo =? hi then (lo - 1, hi + 1) else (lo, hi))
       | _, _ => None
       end, w)
  | None =>
      match TimeSeries_DateLocator.finder self vmin vmax
              (TimeSeries_DateLocator.freq self) with
      | Some info =>
          (match head (positions self info), last (positions self info) with
           | Some lo, Some hi =>
               Some (if lo =? hi then (lo - 1, hi + 1) else (lo, hi))
           | _, _ => None
           end,
           World (PlotObj (view_interval (plot w)) (Some info))
                 (S (finder_calls w)))
      | None => (None, World (plot w) (S (finder_calls w)))
      end
  end.
Proof.
  destruct w as [[stored cache] calls].
  unfold autoscale, TimeSeries_DateLocator._get_default_locs, positions.
  unfold axis_info, call_finder, get_plot, set_plot, raise.
  cbv [mbind mret M_bind M_ret bind ret plot finder_calls
       view_interval date_axis_info].
  destruct cache as [cached|];
    [| destruct (TimeSeries_DateLocator.finder self _ _ _) as [info|]];
    try reflexivity;
    destruct (TimeSeries_DateLocator.isminor self);
    repeat match goal with
           | |- context [head ?l] => destruct (head l)
           | |- context [last ?l] => destruct (last l)
           | |- context [?a =? ?b] => destruct (a =? b)
           end; reflexivity.
Qed.

(** X16. With tick information in the cache [autoscale] does not look at
    the data interval: it invokes no finder, leaves the world as it is, and
    returns for every data interval what it returns for any other (the
    limits of the cached ticks, those of the last view). *)
Theorem autoscale_ignores_data_when_cached (self : TimeSeries_DateLocator.t)
    (info : TickInfo) (data data' : Q * Q) (w : world) :
  date_axis_info (plot w) = Some info ->
  autoscale self data w = autoscale self data' w
  /\ (autoscale self data w).2 = w.
Proof.
  intros Hcached. destruct data as [lo hi], data' as [lo' hi'].
  rewrite !autoscale_run, Hcached. split; reflexivity.
Qed.

Lemma autoscale_ignores_data_when_cached_witness :
  autoscale monthly_locator (0, 500)%Q monthly_drawn.2
  = autoscale monthly_locator (7, 8)%Q monthly_drawn.2
  /\ (autoscale monthly_locator (0, 500)%Q monthly_drawn.2).2
     = monthly_drawn.2.
Proof.
  assert (Hsome : bool_decide
            (is_Some (date_axis_info (plot monthly_drawn.2))) = true)
    by (vm_compute; reflexivity).
  apply bool_decide_eq_true in Hsome. destruct Hsome as [info Hinfo].
  apply (autoscale_ignores_data_when_cached monthly_locator info).
  exact Hinfo.
Defined.

Lemma sorted_sublist (l1 l2 : list Z) :
  l1 `sublist_of` l2 -> StronglySorted Z.lt l2 -> StronglySorted Z.lt l1.
Proof.
  induction 1 as [|x l1 l2 Hsub IH|x l1 l2 Hsub IH]; intros Hsorted.
  - constructor.
  - apply StronglySorted_inv in Hsorted as [Hsorted Hall].
    constructor; [apply IH, Hsorted |].
    rewrite Forall_forall in Hall |- *.
    intros y Hy. eapply Hall, elem_of_sublist; eassumption.
  - apply StronglySorted_inv in Hsorted as [Hsorted _]. apply IH, Hsorted.
Qed.

Lemma sorted_head_last (l : list Z) (lo hi : Z) :
  StronglySorted Z.lt l -> head l = Some lo -> last l = Some hi -> lo <= hi.
Proof.
  destruct l as [|x l]; [discriminate |]. intros Hsorted [= <-] Hlast.
  apply StronglySorted_inv in Hsorted as [_ Hall].
  destruct l as [|y l]; [cbn in Hlast; injection Hlast as <-; lia |].
  assert (Hin : hi ∈ y :: l).
  { rewrite last_cons_cons, last_lookup in Hlast.
    eapply list_elem_of_lookup_2, Hlast. }
  rewrite Forall_forall in Hall. specialize (Hall hi Hin). lia.
Qed.

Lemma positions_sublist (self : TimeSeries_DateLocator.t) (info : TickInfo) :
  positions self info `sublist_of` map TickInfo.val info.
Proof.
  unfold positions, compress.
  destruct (TimeSeries_DateLocator.isminor self);
    apply fmap_sublist, sublist_filter.
Qed.



(** ** Where the monthly and the quarterly finder put major ticks *)

Lemma select_shift (keep : nat -> bool) (idx : list nat) :
  select keep (map S idx) = map S (select (fun i => keep (S i)) idx).
Proof.
  unfold select. induction idx as [|i idx IH]; [reflexivity |].
  cbn [map]. rewrite !filter_cons, IH.
  destruct (decide (keep (S i) = true)); reflexivity.
Qed.

(** Selecting from the true entries of a mask by a test on the dates is
    taking the true entries of the conjunction. *)
Lemma select_nonzero (keep : nat -> bool) (q p : Z -> bool)
    (dates_ : list Z) :
  (forall i, keep i = q (nth i dates_ 0)) ->
  select keep (nonzero (map p dates_))
  = nonzero (map (fun d => p d && q d) dates_).
Proof.
  revert keep. induction dates_ as [|d dates_ IH]; intros keep Hkeep;
    [reflexivity |].
  cbn [map]. rewrite !nonzero_cons. unfold select at 1.
  rewrite filter_app. fold (select keep (map S (nonzero (map p dates_)))).
  rewrite select_shift, (IH (fun i => keep (S i)))
    by (intros i; apply (Hkeep (S i))).
  specialize (Hkeep 0%nat). cbn [nth] in Hkeep.
  destruct (p d); cbn [andb]; [| reflexivity].
  rewrite filter_cons, filter_nil.
  destruct (decide (keep 0%nat = true)) as [Hk | Hk];
    rewrite Hkeep in Hk; destruct (q d); try congruence; reflexivity.
Qed.

Lemma elem_of_label_first (label : string) (dates_ : list Z)
    (info info' : TickInfo) (r : TickInfo.row) :
  label_first label dates_ info = Some info' -> r ∈ info' ->
  r ∈ info \/ exists r0, r0 ∈ info /\ r = TickInfo.set_fmt label r0.
Proof.
  unfold label_first, assign1. case_bool_decide; [| discriminate].
  intros [= <-] Hr. apply list_elem_of_lookup in Hr as [i Hi].
  rewrite list_lookup_alter in Hi. case_decide.
  - destruct (info !! _) as [r0|] eqn:Hr0; [| discriminate Hi].
    injection Hi as <-. right. exists r0.
    split; [eapply list_elem_of_lookup_2, Hr0 | reflexivity].
  - left. eapply list_elem_of_lookup_2, Hi.
Qed.

(** The rows of the monthly finder, band by band. *)
Lemma monthly_rows_shape (vmin vmax : Q) (freq : Z) :
  (vmin <= vmax)%Q ->
  exists info,
    _monthly_finder vmin vmax freq = Some info
    /\ forall r, r ∈ info ->
         (TickInfo.maj r = true -> TickInfo.val r mod 12 = 0)
         /\ (TickInfo.maj r = true -> TickInfo.fmt r <> "")
         /\ TickInfo.fmt r
            ∈ [""; "%b"; "%b" +:+ nl +:+ "%Y"; "%Y"].
Proof.
  intros Hle%int_le. unfold _monthly_finder. cbv zeta.
  rewrite zeros_returns by lia. cbn [mbind option_bind].
  set (dates_ := arange _ _).
  assert (Hlabels : forall s : string,
    s ∈ [""; "%b"; "%b" +:+ nl +:+ "%Y"; "%Y"]
    <-> s = "" \/ s = "%b" \/ s = "%b" +:+ nl +:+ "%Y" \/ s = "%Y").
  { intros s. rewrite !elem_of_cons, elem_of_nil. tauto. }
  destruct (le_float _ _);
    [| destruct (le_float _ _);
       [| destruct (_ <=? _);
          [| destruct (_ <=? _);
             [| destruct (_get_default_annual_spacing _)
                  as [min_anndef maj_anndef];
                rewrite !(select_nonzero _
                            (fun d => (d / 12 + 1) mod _ =? 0)
                            (fun d => d mod 12 =? 0) dates_)
                  by (intros i; reflexivity) ]]]];
    unfold where_mod;
    repeat first [rewrite assign_where | rewrite assign_all_map].
  2-5: eexists; (split; [reflexivity |]);
    intros r (v & -> & _)%list_elem_of_fmap;
    cbn [TickInfo.set_maj TickInfo.set_min TickInfo.set_fmt
         TickInfo.val TickInfo.maj TickInfo.min TickInfo.fmt];
    rewrite Hlabels;
    repeat match goal with
           | |- context [if ?c then _ else _] => destruct c eqn:?
           end;
    cbn [TickInfo.set_maj TickInfo.set_min TickInfo.set_fmt
         TickInfo.val TickInfo.maj TickInfo.min TickInfo.fmt andb orb];
    repeat split; try discriminate; try lia; auto 6.
  assert (Hrows : forall r,
    r ∈ map (fun d =>
               if d mod 12 =? 0
               then TickInfo.set_fmt ("%b" +:+ nl +:+ "%Y")
                      (TickInfo.set_fmt "%b"
                         (TickInfo.set_min true
                            (if d mod 12 =? 0
                             then TickInfo.set_maj true
                                    (TickInfo.Row d false false "")
                             else TickInfo.Row d false false "")))
               else TickInfo.set_fmt "%b"
                      (TickInfo.set_min true
                         (if d mod 12 =? 0
                          then TickInfo.set_maj true
                                 (TickInfo.Row d false false "")
                          else TickInfo.Row d false false ""))) dates_ ->
    (TickInfo.maj r = true -> TickInfo.val r mod 12 = 0)
    /\ (TickInfo.fmt r = "%b" \/ TickInfo.fmt r = "%b" +:+ nl +:+ "%Y")).
  { intros r (v & -> & _)%list_elem_of_fmap.
    destruct (Z.eqb_spec (v mod 12) 0); cbn; auto. split; [discriminate |].
    auto. }
  destruct (negb (has_level_label _ _)).
  - destruct (label_first _ _ _) as [info'|] eqn:Hfirst.
    + eexists. split; [reflexivity |]. intros r Hr. rewrite Hlabels.
      destruct (elem_of_label_first _ _ _ _ _ Hfirst Hr)
        as [Hin | (r0 & Hin & ->)];
        apply Hrows in Hin as [Hmaj Hfmt]; cbn.
      * repeat split; [exact Hmaj | | tauto].
        intros _ Hempty. rewrite Hempty in Hfmt.
        destruct Hfmt; discriminate.
      * repeat split; [exact Hmaj | discriminate | tauto].
    + exfalso.
      edestruct (label_first_grows ("%b" +:+ nl +:+ "%Y") dates_)
        as (info' & Hsome & _);
        [apply grows_refl | apply length_map | |
         rewrite Hsome in Hfirst; discriminate Hfirst].
      subst dates_. rewrite length_arange. lia.
  - eexists. split; [reflexivity |]. intros r Hr. rewrite Hlabels.
    apply Hrows in Hr as [Hmaj Hfmt].
    repeat split; [exact Hmaj | | tauto].
    intros _ Hempty. rewrite Hempty in Hfmt. destruct Hfmt; discriminate.
Qed.





(** ** Positions and labels together *)

Lemma dict_fold_keeps (rows : TickInfo) (d : gmap Z string) (k : Z) :
  is_Some (d !! k) ->
  is_Some (fold_left (fun d r => <[TickInfo.val r := TickInfo.fmt r]> d)
             rows d !! k).
Proof.
  revert d. induction rows as [|r rows IH]; intros d Hk; [exact Hk |].
  cbn [fold_left]. apply IH.
  destruct (decide (TickInfo.val r = k)) as [<- | Hne].
  - rewrite lookup_insert_eq. eauto.
  - rewrite lookup_insert_ne by exact Hne. exact Hk.
Qed.

Lemma dict_of_keys (rows : TickInfo) (k : Z) :
  is_Some (TimeSeries_DateFormatter.dict_of rows !! k)
  <-> k ∈ map TickInfo.val rows.
Proof.
  split.
  - intros [label Hk].
    apply dict_fold_source in Hk as [(r & Hr & <- & _) | Hk];
      [| rewrite lookup_empty in Hk; discriminate Hk].
    apply list_elem_of_fmap. eauto.
  - unfold TimeSeries_DateFormatter.dict_of.
    generalize (∅ : gmap Z string).
    induction rows as [|r rows IH]; intros d Hk;
      [apply elem_of_nil in Hk; destruct Hk |].
    cbn [map fold_left] in *. apply elem_of_cons in Hk as [-> | Hk].
    + apply dict_fold_keeps. rewrite lookup_insert_eq. eauto.
    + apply IH, Hk.
Qed.

(** X20. The positions a major locator returns and the positions the major
    formatter has a label entry for are the same, for any tick
    information; every position the minor formatter has an entry for is
    among those the minor locator returns, but a minor position that is
    also major has an entry in it only if its ordinal occurs in another
    row that is minor and not major. *)
Theorem positions_and_labels_agree (info : TickInfo) (k : Z) :
  (k ∈ compress TickInfo.maj TickInfo.val info
   <-> is_Some (TimeSeries_DateFormatter.dict_of (role_rows false info)
                !! k))
  /\ (is_Some (TimeSeries_DateFormatter.dict_of (role_rows true info) !! k)
      -> k ∈ compress TickInfo.min TickInfo.val info)
  /\ (is_Some (TimeSeries_DateFormatter.dict_of (role_rows true info) !! k)
      -> exists r, r ∈ info /\ TickInfo.val r = k
                   /\ TickInfo.min r = true /\ TickInfo.maj r = false).
Proof.
  rewrite !dict_of_keys. unfold compress, role_rows. split; [reflexivity |].
  split; intros (r & -> & Hr)%list_elem_of_fmap;
    apply list_elem_of_filter in Hr as [Hrole Hr];
    apply andb_true_iff in Hrole as [Hmin Hmaj];
    apply negb_true_iff in Hmaj.
  - apply list_elem_of_fmap. exists r. split; [reflexivity |].
    apply list_elem_of_filter. auto.
  - eauto.
Qed.

(** ** The fallback label of the daily finder *)

Lemma nonzero_positive_tail (mask : list bool) (i j : nat)
    (rest : list nat) :
  nonzero mask = i :: j :: rest -> j <> 0%nat.
Proof.
  destruct mask as [|b mask]; [discriminate |].
  rewrite nonzero_cons. destruct b; cbn [app].
  - intros [= _ Htail]. destruct (nonzero mask); [discriminate |].
    cbn in Htail. injection Htail as <- _. discriminate.
  - destruct (nonzero mask) as [|i' [|j' rest']]; try discriminate.
    cbn. intros [= _ <- _]. discriminate.
Qed.

Section FirstLabel.
Context `{Period}.

(** X21. The position [first_label] picks among the breaks of a period:
    it raises exactly on no break at all; it picks a break; with an
    integral [vmin] it picks the first break; and with a fractional
    [vmin] and more than one break it never picks position 0, where the
    label would not be shown. *)
Theorem first_label_position (vmin_orig : Q) (freq : Z) (dates_ : list Z)
    (period : field) :
  let breaks := period_break freq dates_ period in
  (first_label vmin_orig breaks = None <-> breaks = [])
  /\ (forall i, first_label vmin_orig breaks = Some i ->
        i ∈ breaks /\ (i < length dates_)%nat
        /\ (Py.has_fraction vmin_orig = false -> breaks !! 0%nat = Some i)
        /\ (Py.has_fraction vmin_orig = true ->
            (1 < length breaks)%nat -> i <> 0%nat)).
Proof.
  intros breaks. split.
  - split.
    + intros Hnone. destruct breaks as [|l0 rest] eqn:Hbreaks;
        [reflexivity |].
      destruct (first_label_elem vmin_orig (l0 :: rest)) as (i & Hi & _);
        [discriminate | congruence].
    + intros ->. reflexivity.
  - intros i Hi.
    assert (Hin : i ∈ breaks).
    { destruct breaks as [|l0 rest] eqn:Hbreaks; [discriminate Hi |].
      destruct (first_label_elem vmin_orig (l0 :: rest)) as (i' & Hi' & Hin);
        [discriminate |].
      congruence. }
    split; [exact Hin |]. split; [eapply period_break_lt, Hin |].
    unfold first_label in Hi.
    destruct breaks as [|l0 [|l1 rest]] eqn:Hbreaks; [discriminate Hi | |];
      cbn in Hi.
    + destruct (bool_decide (l0 = 0%nat)); cbn in Hi; injection Hi as <-;
        (split; [reflexivity | cbn; lia]).
    + split.
      * intros Hfrac. rewrite Hfrac, andb_false_r in Hi.
        injection Hi as <-. reflexivity.
      * intros Hfrac _. rewrite Hfrac, andb_true_r in Hi.
        case_bool_decide as Hzero; cbn in Hi; injection Hi as <-.
        -- eapply nonzero_positive_tail, Hbreaks.
        -- exact Hzero.
Qed.

End FirstLabel.

(** ** Major ticks of a monthly axis *)

Lemma elem_of_arange (lo v : Z) (n : nat) :
  v ∈ arange lo n <-> lo <= v < lo + Z.of_nat n.
Proof.
  unfold arange. rewrite list_elem_of_fmap. split.
  - intros (i & -> & Hi). apply elem_of_seq in Hi. lia.
  - intros Hv. exists (Z.to_nat (v - lo)). split; [lia |].
    apply elem_of_seq. lia.
Qed.


